(** * Face-Rater: the landmark-to-score geometry engine

    A shallow embedding of the four-metric scoring code of the desktop
    application ([LM], [dist], [meanPoint], [getPts], [clamp],
    [scoreFromError], [computeMetrics], [weightedScore]) and the properties
    of its specification.

    The code is embedded twice.

    [B64] is the code on IEEE-754 binary64 numbers, as JavaScript runs it:
    every [+], [-], [*], [/] rounds to nearest, overflows to an infinity and
    underflows to a subnormal or a zero (the operations of [SpecFloat] at
    precision 53 and maximal exponent 1024).  [Math.exp] and [Math.hypot],
    which ECMAScript fixes on the special values only, are parameters of the
    model.  The properties of the specification are stated and settled on
    [B64].

    The definitions outside [B64] idealise JavaScript numbers as [num]: the
    real numbers extended with [PInf], [NInf] and [NaN], with the IEEE-754
    rules for the special values (0/0 is NaN, x/0 is an infinity,
    Infinity - Infinity is NaN, ...) and exact arithmetic on finite values.
    They carry properties that rounding does not touch: which calls throw,
    what NaN operands and missing keys do, how [clamp] saturates, how scores
    are classified.

    The proportion/symmetry/harmony variant of the application
    ([calculateFacialMetrics], [determineFaceShape], [getScoreColor],
    [getScoreDescription]) is embedded in [Legacy], and the computing steps
    of [analyze] in [B64.analyzeMesh]. *)

From Stdlib Require Import Reals Lra List String Arith ZArith Lia Permutation.
From Stdlib Require Import SpecFloat.
Import ListNotations.

Local Open Scope R_scope.

(** ** JavaScript numbers *)

Inductive num : Type :=
| Fin (r : R)
| PInf
| NInf
| NaN.

Module Num.

Definition is_finite (a : num) : Prop :=
  match a with Fin _ => True | _ => False end.

(** [a + b] *)
Definition add (a b : num) : num :=
  match a, b with
  | NaN, _ | _, NaN => NaN
  | Fin x, Fin y => Fin (x + y)
  | PInf, NInf | NInf, PInf => NaN
  | PInf, _ | _, PInf => PInf
  | NInf, _ | _, NInf => NInf
  end.

(** [-a] *)
Definition neg (a : num) : num :=
  match a with
  | Fin x => Fin (- x)
  | PInf => NInf
  | NInf => PInf
  | NaN => NaN
  end.

(** [a - b] *)
Definition sub (a b : num) : num := add a (neg b).

(** The infinity that a non-zero finite factor [x] turns [PInf] into;
    [0 * Infinity] is NaN. *)
Definition scale_inf (x : R) : num :=
  if Req_dec_T x 0 then NaN else if Rlt_dec 0 x then PInf else NInf.

(** [a * b] *)
Definition mul (a b : num) : num :=
  match a, b with
  | NaN, _ | _, NaN => NaN
  | Fin x, Fin y => Fin (x * y)
  | Fin x, PInf | PInf, Fin x => scale_inf x
  | Fin x, NInf | NInf, Fin x => neg (scale_inf x)
  | PInf, PInf | NInf, NInf => PInf
  | PInf, NInf | NInf, PInf => NInf
  end.

(** [a / b]; a zero divisor is the positive zero. *)
Definition div (a b : num) : num :=
  match a, b with
  | NaN, _ | _, NaN => NaN
  | Fin x, Fin y => if Req_dec_T y 0 then scale_inf x else Fin (x / y)
  | Fin _, PInf | Fin _, NInf => Fin 0
  | PInf, Fin y => if Rlt_dec y 0 then NInf else PInf
  | NInf, Fin y => if Rlt_dec y 0 then PInf else NInf
  | _, _ => NaN
  end.

(** [Math.abs(a)] *)
Definition abs (a : num) : num :=
  match a with
  | Fin x => Fin (Rabs x)
  | PInf | NInf => PInf
  | NaN => NaN
  end.

(** [Math.exp(a)] *)
Definition exp (a : num) : num :=
  match a with
  | Fin x => Fin (Rtrigo_def.exp x)
  | PInf => PInf
  | NInf => Fin 0
  | NaN => NaN
  end.

(** [Math.hypot(a, b)]: an infinite argument wins over a NaN one. *)
Definition hypot (a b : num) : num :=
  match a, b with
  | PInf, _ | NInf, _ | _, PInf | _, NInf => PInf
  | NaN, _ | _, NaN => NaN
  | Fin x, Fin y => Fin (sqrt (x * x + y * y))
  end.

(** [Math.max(a, b)] *)
Definition max (a b : num) : num :=
  match a, b with
  | NaN, _ | _, NaN => NaN
  | PInf, _ | _, PInf => PInf
  | NInf, c | c, NInf => c
  | Fin x, Fin y => Fin (Rmax x y)
  end.

(** [Math.min(a, b)] *)
Definition min (a b : num) : num :=
  match a, b with
  | NaN, _ | _, NaN => NaN
  | NInf, _ | _, NInf => NInf
  | PInf, c | c, PInf => c
  | Fin x, Fin y => Fin (Rmin x y)
  end.

(** [a || b] on numbers: [0] and [NaN] are the falsy numbers. *)
Definition or (a b : num) : num :=
  match a with
  | Fin x => if Req_dec_T x 0 then b else a
  | NaN => b
  | _ => a
  end.

(** [a <= b]; every comparison with NaN is false. *)
Definition le (a b : num) : Prop :=
  match a, b with
  | NaN, _ | _, NaN => False
  | NInf, _ | _, PInf => True
  | Fin x, Fin y => x <= y
  | _, _ => False
  end.

(** [Math.sqrt(a)] *)
Definition sqrt (a : num) : num :=
  match a with
  | Fin x => if Rlt_dec x 0 then NaN else Fin (R_sqrt.sqrt x)
  | PInf => PInf
  | NInf | NaN => NaN
  end.

(** [Math.pow(a, 2)] *)
Definition pow2 (a : num) : num :=
  match a with
  | Fin x => Fin (x * x)
  | PInf | NInf => PInf
  | NaN => NaN
  end.

(** [a < b]; every comparison with NaN is false. *)
Definition ltb (a b : num) : bool :=
  match a, b with
  | NaN, _ | _, NaN => false
  | Fin x, Fin y => if Rlt_dec x y then true else false
  | NInf, NInf | PInf, _ => false
  | NInf, _ | Fin _, PInf => true
  | Fin _, NInf => false
  end.

(** [a >= b] *)
Definition geb (a b : num) : bool :=
  match a, b with
  | NaN, _ | _, NaN => false
  | _, _ => negb (ltb a b)
  end.

End Num.

Declare Scope num_scope.
Delimit Scope num_scope with num.
Bind Scope num_scope with num.
Notation "a + b" := (Num.add a b) : num_scope.
Notation "a - b" := (Num.sub a b) : num_scope.
Notation "a * b" := (Num.mul a b) : num_scope.
Notation "a / b" := (Num.div a b) : num_scope.
Notation "- a" := (Num.neg a) : num_scope.
Notation "a || b" := (Num.or a b) : num_scope.
Notation "a <= b" := (Num.le a b) : num_scope.

(** ** Completions: a call returns normally or throws *)

(** [TypeError] is what reading a property of [undefined] throws.  The code
    has no [throw] statement; [InvalidInputError] and [ConfigurationError]
    are the error kinds the specification names. *)
Inductive js_error : Type :=
| TypeError
| InvalidInputError
| ConfigurationError.

Inductive completion (A : Type) : Type :=
| Normal (a : A)
| Throw (e : js_error).
Arguments Normal {A} a.
Arguments Throw {A} e.

Definition bind {A B : Type} (c : completion A) (k : A -> completion B)
  : completion B :=
  match c with
  | Normal a => k a
  | Throw e => Throw e
  end.

Notation "x <- c ;; k" := (bind c (fun x => k))
  (at level 61, c at next level, right associativity).

(** [xs.map(f)] for a callback that may throw. *)
Fixpoint mapM {A B : Type} (f : A -> completion B) (xs : list A)
  : completion (list B) :=
  match xs with
  | [] => Normal []
  | a :: rest => b <- f a ;; bs <- mapM f rest ;; Normal (b :: bs)
  end.

(** The completion of a call of a function that has no throwing step. *)
Definition call {A B : Type} (f : A -> B) (a : A) : completion B :=
  Normal (f a).

(** ** Data *)

(** A detector keypoint [{x, y}]. *)
Module Landmark.
Record t : Type := mk { x : num; y : num }.
End Landmark.

(** A two-element array [[x, y]]. *)
Definition point : Type := (num * num)%type.

(** A plain object with numeric property values, in insertion order. *)
Definition jsobj : Type := list (string * num).

(** [o.k]: [None] is [undefined]. *)
Fixpoint prop (o : jsobj) (k : string) : option num :=
  match o with
  | [] => None
  | (k', v) :: rest => if String.eqb k' k then Some v else prop rest k
  end.

(** ToNumber, applied by [*] to its operands: [undefined] becomes NaN. *)
Definition ToNumber (v : option num) : num :=
  match v with Some n => n | None => NaN end.

Definition Object_values (o : jsobj) : list num := map snd o.

(** ** Landmark indices for face parts *)

Module LM.
Definition leftEye : list nat := [33; 133; 159; 145; 153; 144]%nat.
Definition rightEye : list nat := [362; 263; 386; 374; 380; 373]%nat.
Definition leftInner : nat := 133.
Definition rightInner : nat := 362.
Definition leftOuter : nat := 33.
Definition rightOuter : nat := 263.
Definition noseBridgeTop : nat := 168.
Definition noseTip : nat := 1.
Definition noseLeft : nat := 97.
Definition noseRight : nat := 326.
Definition chin : nat := 152.
Definition faceLeft : nat := 234.
Definition faceRight : nat := 454.
Definition browLeftMid : nat := 55.
Definition browRightMid : nat := 285.

(** Every index the table mentions. *)
Definition indices : list nat :=
  leftEye ++ rightEye ++
  [leftInner; rightInner; leftOuter; rightOuter; noseBridgeTop; noseTip;
   noseLeft; noseRight; chin; faceLeft; faceRight; browLeftMid;
   browRightMid].
End LM.

(** ** Utility functions *)

Local Open Scope num_scope.

(** [Math.hypot(a[0] - b[0], a[1] - b[1])] *)
Definition dist (a b : point) : num :=
  Num.hypot (fst a - fst b) (snd a - snd b).

(** [points.reduce((acc, p) => [acc[0] + p[0], acc[1] + p[1]], [0, 0])],
    then both sums divided by [points.length]. *)
Definition meanPoint (points : list point) : point :=
  let n := Fin (INR (List.length points)) in
  let s := fold_left (fun acc p => (fst acc + fst p, snd acc + snd p))
                     points (Fin 0, Fin 0) in
  (fst s / n, snd s / n).

(** [landmarks[i].x] and [landmarks[i].y]: [landmarks[i]] is [undefined]
    past the end of the array, and reading its property throws. *)
Definition getx (landmarks : list Landmark.t) (i : nat) : completion num :=
  match nth_error landmarks i with
  | Some p => Normal (Landmark.x p)
  | None => Throw TypeError
  end.

Definition gety (landmarks : list Landmark.t) (i : nat) : completion num :=
  match nth_error landmarks i with
  | Some p => Normal (Landmark.y p)
  | None => Throw TypeError
  end.

(** [[landmarks[i].x, landmarks[j].y]] *)
Definition xy (landmarks : list Landmark.t) (i j : nat) : completion point :=
  a <- getx landmarks i ;; b <- gety landmarks j ;; Normal (a, b).

(** [idxs.map(i => [landmarks[i].x, landmarks[i].y])] *)
Definition getPts (landmarks : list Landmark.t) (idxs : list nat)
  : completion (list point) :=
  mapM (fun i => xy landmarks i i) idxs.

(** [Math.max(a, Math.min(b, v))] *)
Definition clamp (v a b : num) : num := Num.max a (Num.min b v).

(** The tolerance parameter has the default value 0.1; every call in the
    engine passes it. *)
Definition scoreFromError (err tolerance : num) : num :=
  clamp (Fin 100 * Num.exp (- (err * err) / (Fin 2 * tolerance * tolerance)))
        (Fin 0) (Fin 100).

(** ** Compute face metrics *)

Record Raw : Type := mkRaw {
  lw : num;
  fifths : num;
  eyeGapRatio : num;
  symmetryNorm : num
}.

Record Metrics : Type := mkMetrics {
  symmetryScore : num;
  goldenScore : num;
  fifthsScore : num;
  eyeGapScore : num;
  raw : Raw
}.

(** The left/right landmark pairs compared by the symmetry metric. *)
Definition pairs : list (nat * nat) :=
  [(LM.leftOuter, LM.rightOuter); (LM.leftInner, LM.rightInner);
   (LM.browLeftMid, LM.browRightMid); (LM.noseLeft, LM.noseRight)].

(** The callback of [pairs.map]: the distance between the left point and
    the right point mirrored about [x = midlineX]. *)
Definition symErr (landmarks : list Landmark.t) (midlineX : num)
           (lr : nat * nat) : completion num :=
  let (l, r) := lr in
  L <- xy landmarks l l ;;
  R <- xy landmarks r r ;;
  let Rm := (Fin 2 * midlineX - fst R, snd R) in
  Normal (dist L Rm).

Definition computeMetrics (landmarks : list Landmark.t) : completion Metrics :=
  let pts := map (fun p => (Landmark.x p, Landmark.y p)) landmarks in
  leftEyePts <- getPts landmarks LM.leftEye ;;
  rightEyePts <- getPts landmarks LM.rightEye ;;
  let leftEyeCenter := meanPoint leftEyePts in
  let rightEyeCenter := meanPoint rightEyePts in
  let eyeCenterMid :=
    ((fst leftEyeCenter + fst rightEyeCenter) / Fin 2,
     (snd leftEyeCenter + snd rightEyeCenter) / Fin 2) in
  faceLeft <- xy landmarks LM.faceLeft LM.faceLeft ;;
  faceRight <- xy landmarks LM.faceRight LM.faceRight ;;
  let faceWidth := dist faceLeft faceRight in
  chin <- xy landmarks LM.chin LM.chin ;;
  noseBridgeTop <- xy landmarks LM.noseBridgeTop LM.noseBridgeTop ;;
  let faceLength := dist noseBridgeTop chin * Fin 1.4 in
  let midlineX := fst eyeCenterMid in
  (* Symmetry *)
  symErrs <- mapM (symErr landmarks midlineX) pairs ;;
  let symmetryErr :=
    fold_left (fun a b => a + b) symErrs (Fin 0)
    / Fin (INR (List.length symErrs)) in
  let symmetryNorm := symmetryErr / (faceWidth || Fin 1e-6) in
  let symmetryScore := scoreFromError symmetryNorm (Fin 0.04) in
  (* Golden ratio *)
  let lw := faceLength / (faceWidth || Fin 1e-6) in
  let goldenTarget := Fin 1.618 in
  let goldenErr := Num.abs (lw - goldenTarget) / goldenTarget in
  let goldenScore := scoreFromError goldenErr (Fin 0.15) in
  (* Rule of Fifths *)
  leftEyeW_a <- xy landmarks LM.leftOuter LM.leftInner ;;
  leftEyeW_b <- xy landmarks LM.leftInner LM.leftInner ;;
  let leftEyeW := dist leftEyeW_a leftEyeW_b in
  rightEyeW_a <- xy landmarks LM.rightInner LM.rightOuter ;;
  rightEyeW_b <- xy landmarks LM.rightOuter LM.rightOuter ;;
  let rightEyeW := dist rightEyeW_a rightEyeW_b in
  let eyeW := (leftEyeW + rightEyeW) / Fin 2 in
  let fifths := (faceWidth || Fin 1e-6) / (eyeW || Fin 1e-6) in
  let fifthsErr := Num.abs (fifths - Fin 5) / Fin 5 in
  let fifthsScore := scoreFromError fifthsErr (Fin 0.18) in
  (* Eye gap *)
  innerGap_a <- xy landmarks LM.leftInner LM.leftInner ;;
  innerGap_b <- xy landmarks LM.rightInner LM.rightInner ;;
  let innerGap := dist innerGap_a innerGap_b in
  let eyeGapRatio := innerGap / (eyeW || Fin 1e-6) in
  let eyeGapErr := Num.abs (eyeGapRatio - Fin 1) in
  let eyeGapScore := scoreFromError eyeGapErr (Fin 0.25) in
  Normal (mkMetrics symmetryScore goldenScore fifthsScore eyeGapScore
            (mkRaw lw fifths eyeGapRatio symmetryNorm)).

(** [Object.values(weights).reduce((a, b) => a + b, 0) || 1] divides the
    weighted sum of the four scores. *)
Definition weightedScore (metrics : Metrics) (weights : jsobj) : num :=
  let wSum :=
    fold_left (fun a b => a + b) (Object_values weights) (Fin 0) || Fin 1 in
  (symmetryScore metrics * ToNumber (prop weights "symmetry")
   + goldenScore metrics * ToNumber (prop weights "golden")
   + fifthsScore metrics * ToNumber (prop weights "fifths")
   + eyeGapScore metrics * ToNumber (prop weights "eyeGap")) / wSum.

(** The weights object literal of the application, with its four keys in
    source order. *)
Definition mkWeights (symmetry golden fifths eyeGap : num) : jsobj :=
  [("symmetry"%string, symmetry); ("golden"%string, golden);
   ("fifths"%string, fifths); ("eyeGap"%string, eyeGap)].


Local Close Scope num_scope.

(** ** Measurements of a finite landmark set

    The quantities [computeMetrics] derives, as real numbers, for a landmark
    array whose entries at the table's indices exist and hold finite
    coordinates. *)

(** [landmarks[i]] exists and both its coordinates are finite numbers. *)
Definition finite_at (landmarks : list Landmark.t) (i : nat) : bool :=
  match nth_error landmarks i with
  | Some (Landmark.mk (Fin _) (Fin _)) => true
  | _ => false
  end.

(** The data-model invariant on a landmark set: every index the table [LM]
    refers to is present and finite. *)
Definition registry_finite (landmarks : list Landmark.t) : Prop :=
  forallb (finite_at landmarks) LM.indices = true.

(** The real value of a number; it is only used on finite ones. *)
Definition real_of (a : num) : R :=
  match a with Fin r => r | _ => 0 end.

Definition cx (landmarks : list Landmark.t) (i : nat) : R :=
  match nth_error landmarks i with
  | Some p => real_of (Landmark.x p)
  | None => 0
  end.

Definition cy (landmarks : list Landmark.t) (i : nat) : R :=
  match nth_error landmarks i with
  | Some p => real_of (Landmark.y p)
  | None => 0
  end.

Definition fin_point (p : R * R) : point := (Fin (fst p), Fin (snd p)).

Definition Rsum (l : list R) : R := fold_right Rplus 0 l.

(** The real counterpart of [Math.hypot]. *)
Definition hyp (a b : R) : R := sqrt (a * a + b * b).

(** The real counterpart of [d || 1e-6]. *)
Definition den (d : R) : R := if Req_dec_T d 0 then 1e-6 else d.

(** The real counterpart of [scoreFromError] at a finite error. *)
Definition scoreR (e t : R) : R :=
  Rmax 0 (Rmin 100 (100 * exp (- (e * e) / (2 * t * t)))).

Section Measurements.

Variable landmarks : list Landmark.t.

Let X := cx landmarks.
Let Y := cy landmarks.

Definition distR (i j : nat) : R := hyp (X i - X j) (Y i - Y j).

Definition meanX (idxs : list nat) : R :=
  Rsum (map X idxs) / INR (List.length idxs).

Definition faceWidthR : R := distR LM.faceLeft LM.faceRight.

Definition faceLengthR : R := distR LM.noseBridgeTop LM.chin * 1.4.

(** The mirror axis: the x coordinate of the midpoint between the two eye
    centroids. *)
Definition midlineR : R := (meanX LM.leftEye + meanX LM.rightEye) / 2.

Definition symErrR (lr : nat * nat) : R :=
  let (l, r) := lr in hyp (X l - (2 * midlineR - X r)) (Y l - Y r).

Definition symmetryErrR : R :=
  Rsum (map symErrR pairs) / INR (List.length pairs).

Definition symmetryNormR : R := symmetryErrR / den faceWidthR.

Definition lwR : R := faceLengthR / den faceWidthR.

Definition goldenErrR : R := Rabs (lwR - 1.618) / 1.618.

Definition leftEyeWR : R := Rabs (X LM.leftOuter - X LM.leftInner).

Definition rightEyeWR : R := Rabs (X LM.rightInner - X LM.rightOuter).

Definition eyeWR : R := (leftEyeWR + rightEyeWR) / 2.

Definition fifthsR : R := den faceWidthR / den eyeWR.

Definition fifthsErrR : R := Rabs (fifthsR - 5) / 5.

Definition innerGapR : R := distR LM.leftInner LM.rightInner.

Definition eyeGapRatioR : R := innerGapR / den eyeWR.

Definition eyeGapErrR : R := Rabs (eyeGapRatioR - 1).

End Measurements.

(** A landmark array of [n] finite points, given by a coordinate function. *)
Definition landmarks_of (f : nat -> R * R) (n : nat) : list Landmark.t :=
  map (fun i => Landmark.mk (Fin (fst (f i))) (Fin (snd (f i)))) (seq 0 n).

(** ** The proportion/symmetry/harmony variant of the application *)

Module Legacy.

Local Open Scope num_scope.
Local Open Scope string_scope.

Record Details : Type := mkDetails {
  d_faceRatio : string;
  d_eyeDistance : string;
  d_faceWidth : string;
  d_faceHeight : string
}.

Record Result : Type := mkResult {
  overallScore : num;
  proportions : num;
  symmetry : num;
  harmony : num;
  faceShape : string;
  details : Details
}.

Definition determineFaceShape (ratio : num) : string :=
  if Num.ltb ratio (Fin 1.3) then "Round"
  else if Num.ltb ratio (Fin 1.5) then "Square"
  else if Num.ltb ratio (Fin 1.7) then "Heart"
  else if Num.ltb ratio (Fin 1.9) then "Oval"
  else "Oblong".

Definition getScoreColor (score : num) : string :=
  if Num.geb score (Fin 85) then "#4ade80"
  else if Num.geb score (Fin 75) then "#84cc16"
  else if Num.geb score (Fin 65) then "#facc15"
  else "#fb923c".

Definition getScoreDescription (score : num) : string :=
  if Num.geb score (Fin 90) then "Exceptional facial harmony"
  else if Num.geb score (Fin 85) then "Outstanding features"
  else if Num.geb score (Fin 80) then "Very attractive proportions"
  else if Num.geb score (Fin 75) then "Above average beauty"
  else if Num.geb score (Fin 70) then "Good facial balance"
  else if Num.geb score (Fin 65) then "Pleasant features"
  else "Unique charm".

(** [landmarks[i]], whose properties are read afterwards: reading them
    throws when the entry is [undefined], and nothing observable happens
    between the lookup and the first read. *)
Definition at_index (landmarks : list Landmark.t) (i : nat)
  : completion Landmark.t :=
  match nth_error landmarks i with
  | Some p => Normal p
  | None => Throw TypeError
  end.

(** [Math.sqrt(Math.pow(b.x - a.x, 2) + Math.pow(b.y - a.y, 2))] *)
Definition span (a b : Landmark.t) : num :=
  Num.sqrt (Num.pow2 (Landmark.x b - Landmark.x a)
            + Num.pow2 (Landmark.y b - Landmark.y a)).

Section WithToFixed.

(** [Number.prototype.toFixed], the built-in that formats the details. *)
Variable toFixed : num -> nat -> string.

Definition calculateFacialMetrics (landmarks : list Landmark.t)
  : completion Result :=
  leftEye <- at_index landmarks 33 ;;
  rightEye <- at_index landmarks 263 ;;
  noseTip <- at_index landmarks 1 ;;
  leftMouth <- at_index landmarks 61 ;;
  rightMouth <- at_index landmarks 291 ;;
  chin <- at_index landmarks 152 ;;
  forehead <- at_index landmarks 10 ;;
  leftCheek <- at_index landmarks 234 ;;
  rightCheek <- at_index landmarks 454 ;;
  (* Calculate distances *)
  let eyeDistance := span leftEye rightEye in
  let faceHeight := span forehead chin in
  let faceWidth := span leftCheek rightCheek in
  let mouthWidth := span leftMouth rightMouth in
  (* Golden ratio calculations *)
  let goldenRatio := Fin 1.618 in
  let faceRatio := faceHeight / faceWidth in
  let eyeToMouthRatio := eyeDistance / mouthWidth in
  (* Symmetry calculations *)
  let leftEyeToNose := span noseTip leftEye in
  let rightEyeToNose := span noseTip rightEye in
  let symmetryScore :=
    Fin 1 - Num.abs (leftEyeToNose - rightEyeToNose)
            / Num.max leftEyeToNose rightEyeToNose in
  (* Calculate individual scores *)
  let proportionScore :=
    Num.max (Fin 0) (Fin 1 - Num.abs (faceRatio - goldenRatio) / goldenRatio)
    * Fin 100 in
  let symmetryPercentage := symmetryScore * Fin 100 in
  let harmonyScore :=
    Num.max (Fin 0) (Fin 1 - Num.abs (eyeToMouthRatio - Fin 1.5) / Fin 1.5)
    * Fin 100 in
  (* Calculate overall score (weighted average) *)
  let overallScore :=
    proportionScore * Fin 0.4 + symmetryPercentage * Fin 0.4
    + harmonyScore * Fin 0.2 in
  Normal (mkResult
            (Num.min (Fin 95) (Num.max (Fin 60) overallScore))
            proportionScore
            symmetryPercentage
            harmonyScore
            (determineFaceShape faceRatio)
            (mkDetails (toFixed faceRatio 2) (toFixed eyeDistance 0)
                       (toFixed faceWidth 0) (toFixed faceHeight 0))).

End WithToFixed.

End Legacy.

(** * The code on binary64 numbers

    The same functions on IEEE-754 binary64 numbers.  A number is a
    [spec_float]; the doubles are the values that [valid_binary] accepts.
    ECMAScript fixes
    [Math.exp] and [Math.hypot] on the special values only and leaves the
    rest to the engine; [MathImpl] is what the engine supplies there. *)

Module B64.

(** A binary64 number: a signed zero, a signed infinity, NaN, or
    [(-1)^s * m * 2^e]. *)
Definition num : Type := spec_float.

Definition prec : Z := 53.
Definition emax : Z := 1024.

Definition add : num -> num -> num := SFadd prec emax.
Definition sub : num -> num -> num := SFsub prec emax.
Definition mul : num -> num -> num := SFmul prec emax.
Definition div : num -> num -> num := SFdiv prec emax.
Definition neg : num -> num := SFopp.
Definition abs : num -> num := SFabs.
Definition ltb : num -> num -> bool := SFltb.
Definition leb : num -> num -> bool := SFleb.

(** The double nearest to the decimal fraction [p / q], as a numeric literal
    denotes it. *)
Definition dec (p q : positive) : num :=
  div (S754_finite false p 0) (S754_finite false q 0).

(** The double nearest to an integer. *)
Definition of_Z (z : Z) : num := binary_normalize prec emax z 0 false.

(** An array length, which a double holds exactly. *)
Definition of_nat (n : nat) : num := of_Z (Z.of_nat n).

Definition zero : num := S754_zero false.
Definition NaN : num := S754_nan.
Definition PInf : num := S754_infinity false.

Definition is_nan (a : num) : bool :=
  match a with S754_nan => true | _ => false end.

(** Neither NaN nor an infinity. *)
Definition is_finite (a : num) : bool :=
  match a with S754_zero _ | S754_finite _ _ _ => true | _ => false end.

(** The falsy numbers are [+0], [-0] and [NaN]. *)
Definition falsy (a : num) : bool :=
  match a with S754_zero _ | S754_nan => true | _ => false end.

(** [a || b] *)
Definition or (a b : num) : num := if falsy a then b else a.

(** [Math.max(a, b)]: NaN if either is, and [+0] above [-0]. *)
Definition max (a b : num) : num :=
  match a, b with
  | S754_nan, _ | _, S754_nan => S754_nan
  | S754_zero sa, S754_zero sb => S754_zero (andb sa sb)
  | _, _ => if ltb a b then b else a
  end.

(** [Math.min(a, b)]: NaN if either is, and [-0] below [+0]. *)
Definition min (a b : num) : num :=
  match a, b with
  | S754_nan, _ | _, S754_nan => S754_nan
  | S754_zero sa, S754_zero sb => S754_zero (orb sa sb)
  | _, _ => if ltb b a then b else a
  end.

(** What an engine supplies for [Math.exp] and [Math.hypot] on the
    arguments whose result ECMAScript leaves implementation-approximated. *)
Record MathImpl : Type := mkMathImpl {
  impl_exp : num -> num;
  impl_hypot : num -> num -> num
}.

(** Engines compute [Math.hypot(x, 0)] and [Math.hypot(0, x)] as [|x|]
    exactly. *)
Definition axis_exact (E : MathImpl) : Prop :=
  forall (s sz : bool) (m : positive) (e : Z),
    impl_hypot E (S754_finite s m e) (S754_zero sz) = S754_finite false m e
    /\ impl_hypot E (S754_zero sz) (S754_finite s m e) = S754_finite false m e.

(** A point [[x, y]], a keypoint [{x, y}], a weights object. *)
Definition point : Type := (num * num)%type.

Record landmark : Type := mkLandmark { x : num; y : num }.

Definition jsobj : Type := list (string * num).

Fixpoint prop (o : jsobj) (k : string) : option num :=
  match o with
  | [] => None
  | (k', v) :: rest => if String.eqb k' k then Some v else prop rest k
  end.

Definition ToNumber (v : option num) : num :=
  match v with Some n => n | None => NaN end.

Definition Object_values (o : jsobj) : list num := map snd o.

(** [values.reduce((a, b) => a + b, 0)] *)
Definition sum (values : list num) : num :=
  fold_left (fun a b => add a b) values zero.

Record Raw : Type := mkRaw {
  lw : num;
  fifths : num;
  eyeGapRatio : num;
  symmetryNorm : num
}.

Record Metrics : Type := mkMetrics {
  symmetryScore : num;
  goldenScore : num;
  fifthsScore : num;
  eyeGapScore : num;
  raw : Raw
}.

(** [points.reduce((acc, p) => [acc[0] + p[0], acc[1] + p[1]], [0, 0])],
    then both sums divided by [points.length]. *)
Definition meanPoint (points : list point) : point :=
  let n := of_nat (List.length points) in
  let s := fold_left (fun acc p => (add (fst acc) (fst p), add (snd acc) (snd p)))
                     points (zero, zero) in
  (div (fst s) n, div (snd s) n).

Definition getx (landmarks : list landmark) (i : nat) : completion num :=
  match nth_error landmarks i with
  | Some p => Normal (x p)
  | None => Throw TypeError
  end.

Definition gety (landmarks : list landmark) (i : nat) : completion num :=
  match nth_error landmarks i with
  | Some p => Normal (y p)
  | None => Throw TypeError
  end.

(** [[landmarks[i].x, landmarks[j].y]] *)
Definition xy (landmarks : list landmark) (i j : nat) : completion point :=
  a <- getx landmarks i ;; b <- gety landmarks j ;; Normal (a, b).

Definition getPts (landmarks : list landmark) (idxs : list nat)
  : completion (list point) :=
  mapM (fun i => xy landmarks i i) idxs.

(** [Math.max(a, Math.min(b, v))] *)
Definition clamp (v a b : num) : num := max a (min b v).

(** [Object.values(weights).reduce((a, b) => a + b, 0) || 1] divides the
    weighted sum of the four scores. *)
Definition weightedScore (metrics : Metrics) (weights : jsobj) : num :=
  let wSum := or (sum (Object_values weights)) (dec 1 1) in
  div (add (add (add (mul (symmetryScore metrics) (ToNumber (prop weights "symmetry")))
                     (mul (goldenScore metrics) (ToNumber (prop weights "golden"))))
                (mul (fifthsScore metrics) (ToNumber (prop weights "fifths"))))
           (mul (eyeGapScore metrics) (ToNumber (prop weights "eyeGap"))))
      wSum.

Definition mkWeights (symmetry golden fifths eyeGap : num) : jsobj :=
  [("symmetry"%string, symmetry); ("golden"%string, golden);
   ("fifths"%string, fifths); ("eyeGap"%string, eyeGap)].

(** [useState({ symmetry: 40, golden: 25, fifths: 20, eyeGap: 15 })] *)
Definition weights : jsobj :=
  mkWeights (dec 40 1) (dec 25 1) (dec 20 1) (dec 15 1).

Section WithMath.

Variable E : MathImpl.

(** [Math.exp(a)] *)
Definition exp (a : num) : num :=
  match a with
  | S754_nan => S754_nan
  | S754_zero _ => dec 1 1
  | S754_infinity false => S754_infinity false
  | S754_infinity true => S754_zero false
  | S754_finite _ _ _ => impl_exp E a
  end.

(** [Math.hypot(a, b)]: an infinite argument wins over a NaN one, and two
    zeros give [+0]. *)
Definition hypot (a b : num) : num :=
  match a, b with
  | S754_infinity _, _ | _, S754_infinity _ => S754_infinity false
  | S754_nan, _ | _, S754_nan => S754_nan
  | S754_zero _, S754_zero _ => S754_zero false
  | _, _ => impl_hypot E a b
  end.

(** [Math.hypot(a[0] - b[0], a[1] - b[1])] *)
Definition dist (a b : point) : num :=
  hypot (sub (fst a) (fst b)) (sub (snd a) (snd b)).

Definition scoreFromError (err tolerance : num) : num :=
  clamp (mul (dec 100 1)
             (exp (div (neg (mul err err))
                       (mul (mul (dec 2 1) tolerance) tolerance))))
        zero (dec 100 1).

Definition symErr (landmarks : list landmark) (midlineX : num)
           (lr : nat * nat) : completion num :=
  let (l, r) := lr in
  L <- xy landmarks l l ;;
  R <- xy landmarks r r ;;
  let Rm := (sub (mul (dec 2 1) midlineX) (fst R), snd R) in
  Normal (dist L Rm).

Definition computeMetrics (landmarks : list landmark) : completion Metrics :=
  let pts := map (fun p => (x p, y p)) landmarks in
  leftEyePts <- getPts landmarks LM.leftEye ;;
  rightEyePts <- getPts landmarks LM.rightEye ;;
  let leftEyeCenter := meanPoint leftEyePts in
  let rightEyeCenter := meanPoint rightEyePts in
  let eyeCenterMid :=
    (div (add (fst leftEyeCenter) (fst rightEyeCenter)) (dec 2 1),
     div (add (snd leftEyeCenter) (snd rightEyeCenter)) (dec 2 1)) in
  faceLeft <- xy landmarks LM.faceLeft LM.faceLeft ;;
  faceRight <- xy landmarks LM.faceRight LM.faceRight ;;
  let faceWidth := dist faceLeft faceRight in
  chin <- xy landmarks LM.chin LM.chin ;;
  noseBridgeTop <- xy landmarks LM.noseBridgeTop LM.noseBridgeTop ;;
  let faceLength := mul (dist noseBridgeTop chin) (dec 14 10) in
  let midlineX := fst eyeCenterMid in
  (* Symmetry *)
  symErrs <- mapM (symErr landmarks midlineX) pairs ;;
  let symmetryErr := div (sum symErrs) (of_nat (List.length symErrs)) in
  let symmetryNorm := div symmetryErr (or faceWidth (dec 1 1000000)) in
  let symmetryScore := scoreFromError symmetryNorm (dec 4 100) in
  (* Golden ratio *)
  let lw := div faceLength (or faceWidth (dec 1 1000000)) in
  let goldenTarget := dec 1618 1000 in
  let goldenErr := div (abs (sub lw goldenTarget)) goldenTarget in
  let goldenScore := scoreFromError goldenErr (dec 15 100) in
  (* Rule of Fifths *)
  leftEyeW_a <- xy landmarks LM.leftOuter LM.leftInner ;;
  leftEyeW_b <- xy landmarks LM.leftInner LM.leftInner ;;
  let leftEyeW := dist leftEyeW_a leftEyeW_b in
  rightEyeW_a <- xy landmarks LM.rightInner LM.rightOuter ;;
  rightEyeW_b <- xy landmarks LM.rightOuter LM.rightOuter ;;
  let rightEyeW := dist rightEyeW_a rightEyeW_b in
  let eyeW := div (add leftEyeW rightEyeW) (dec 2 1) in
  let fifths := div (or faceWidth (dec 1 1000000)) (or eyeW (dec 1 1000000)) in
  let fifthsErr := div (abs (sub fifths (dec 5 1))) (dec 5 1) in
  let fifthsScore := scoreFromError fifthsErr (dec 18 100) in
  (* Eye gap *)
  innerGap_a <- xy landmarks LM.leftInner LM.leftInner ;;
  innerGap_b <- xy landmarks LM.rightInner LM.rightInner ;;
  let innerGap := dist innerGap_a innerGap_b in
  let eyeGapRatio := div innerGap (or eyeW (dec 1 1000000)) in
  let eyeGapErr := abs (sub eyeGapRatio (dec 1 1)) in
  let eyeGapScore := scoreFromError eyeGapErr (dec 25 100) in
  Normal (mkMetrics symmetryScore goldenScore fifthsScore eyeGapScore
            (mkRaw lw fifths eyeGapRatio symmetryNorm)).

(** The computing steps of [analyze] on the first prediction's
    [scaledMesh], an array of [[x, y, z]] triples: the mesh becomes an array
    of [{x, y}] objects, which is measured and scored with the application's
    [weights].  The state setters and the drawing that follow are not
    modelled. *)
Definition analyzeMesh (scaledMesh : list (num * num * num))
  : completion (Metrics * num) :=
  let lm := map (fun p : num * num * num =>
                   let '(px, py, _) := p in mkLandmark px py) scaledMesh in
  m <- computeMetrics lm ;;
  let s := weightedScore m weights in
  Normal (m, s).

End WithMath.

End B64.

(** ** Concrete landmark sets *)

(** Coordinates from a table of the named points; every other mesh point
    sits at [(50, 50)]. *)
Fixpoint coords (tbl : list (nat * (R * R))) (i : nat) : R * R :=
  match tbl with
  | [] => (50, 50)
  | (j, p) :: rest => if Nat.eqb j i then p else coords rest i
  end.

(** The number of points of the detector's face mesh. *)
Definition mesh_size : nat := 468.

(** The table entry placing mesh point [i] at [(x, y)]. *)
Definition place (i : nat) (x y : R) : nat * (R * R) := (i, (x, y)).

(** A mirror-symmetric face about [x = 50]: face width 100, bridge-to-chin
    distance 809/7 (face length 161.8), both eyes 20 wide and 20 apart. *)
Definition ideal_table : list (nat * (R * R)) :=
  [ place 234 0 50; place 454 100 50;
    place 168 50 40; place 152 50 (40 + 809 / 7); place 1 50 58;
    place 33 20 40; place 133 40 40; place 159 30 37;
    place 145 30 43; place 153 35 43; place 144 25 43;
    place 263 80 40; place 362 60 40; place 386 70 37;
    place 374 70 43; place 380 65 43; place 373 75 43;
    place 55 35 30; place 285 65 30;
    place 97 45 60; place 326 55 60 ].

Definition ideal_face : list Landmark.t :=
  landmarks_of (coords ideal_table) mesh_size.

(** Every landmark at the origin: face width, eye widths and every other
    distance are 0. *)
Definition collapsed_face : list Landmark.t :=
  landmarks_of (fun _ => (0, 0)) mesh_size.

(** Four scores with no raw measurements of interest. *)
Definition scores (s1 s2 s3 s4 : num) : Metrics :=
  mkMetrics s1 s2 s3 s4 (mkRaw NaN NaN NaN NaN).

(** ** Lookups and the inputs of the proportion/symmetry/harmony variant *)

(** The entry a lookup past the end of the array stands for in statements. *)
Definition no_landmark : Landmark.t := Landmark.mk NaN NaN.

(** [[landmarks[i].x, landmarks[i].y]] for an index inside the array. *)
Definition point_at (landmarks : list Landmark.t) (i : nat) : point :=
  (Landmark.x (nth i landmarks no_landmark),
   Landmark.y (nth i landmarks no_landmark)).

(** The indices [calculateFacialMetrics] reads: both eyes, nose tip, mouth
    corners, chin, forehead, cheeks. *)
Definition legacy_indices : list nat :=
  [33; 263; 1; 61; 291; 152; 10; 234; 454]%nat.

Definition legacy_finite (landmarks : list Landmark.t) : Prop :=
  forallb (finite_at landmarks) legacy_indices = true.

Section LegacyMeasurements.

Variable landmarks : list Landmark.t.

Definition eyeDistanceR : R := distR landmarks 263 33.
Definition faceHeightR : R := distR landmarks 152 10.
Definition cheekWidthR : R := distR landmarks 454 234.
Definition mouthWidthR : R := distR landmarks 291 61.
Definition leftEyeToNoseR : R := distR landmarks 33 1.
Definition rightEyeToNoseR : R := distR landmarks 263 1.

End LegacyMeasurements.

(** A stand-in for [toFixed] in examples; the formatted details play no
    part in the scores. *)
Definition no_format (a : num) (digits : nat) : string := EmptyString.

(** The legacy face with the forehead raised so that the face height is
    161.8, that is 1.618 times the cheek-to-cheek width. *)
Definition golden_legacy_face : list Landmark.t :=
  landmarks_of (coords (place 10 50 (40 + 809 / 7 - 161.8) :: place 61 30 80
                          :: place 291 70 80 :: ideal_table)) mesh_size.

(** ** Measurements and inputs in binary64 *)

Module B64M.

Import B64.

(** What [landmarks[i]] holds for an index inside the array. *)
Definition at_x (lm : list landmark) (i : nat) : num :=
  x (nth i lm (mkLandmark NaN NaN)).

Definition at_y (lm : list landmark) (i : nat) : num :=
  y (nth i lm (mkLandmark NaN NaN)).

(** [[landmarks[i].x, landmarks[j].y]] *)
Definition pt (lm : list landmark) (i j : nat) : point := (at_x lm i, at_y lm j).

Definition eps : num := dec 1 1000000.

Section Measurements.

Variable E : MathImpl.
Variable lm : list landmark.

Definition eyeCenter (contour : list nat) : point :=
  meanPoint (map (fun i => pt lm i i) contour).

(** The mirror axis the code computes. *)
Definition midlineX : num :=
  div (add (fst (eyeCenter LM.leftEye)) (fst (eyeCenter LM.rightEye))) (dec 2 1).

Definition faceWidth : num :=
  dist E (pt lm LM.faceLeft LM.faceLeft) (pt lm LM.faceRight LM.faceRight).

Definition faceLength : num :=
  mul (dist E (pt lm LM.noseBridgeTop LM.noseBridgeTop) (pt lm LM.chin LM.chin))
      (dec 14 10).

(** The right point of a pair, mirrored about [midlineX]. *)
Definition mirror (r : nat) : point :=
  (sub (mul (dec 2 1) midlineX) (at_x lm r), at_y lm r).

Definition symErrs : list num :=
  map (fun lr : nat * nat => dist E (pt lm (fst lr) (fst lr)) (mirror (snd lr)))
      pairs.

Definition symmetryNorm : num :=
  div (div (sum symErrs) (of_nat (List.length symErrs))) (or faceWidth eps).

Definition lw : num := div faceLength (or faceWidth eps).

Definition goldenErr : num := div (abs (sub lw (dec 1618 1000))) (dec 1618 1000).

Definition leftEyeW : num :=
  dist E (pt lm LM.leftOuter LM.leftInner) (pt lm LM.leftInner LM.leftInner).

Definition rightEyeW : num :=
  dist E (pt lm LM.rightInner LM.rightOuter) (pt lm LM.rightOuter LM.rightOuter).

Definition eyeW : num := div (add leftEyeW rightEyeW) (dec 2 1).

Definition fifths : num := div (or faceWidth eps) (or eyeW eps).

Definition fifthsErr : num := div (abs (sub fifths (dec 5 1))) (dec 5 1).

Definition innerGap : num :=
  dist E (pt lm LM.leftInner LM.leftInner) (pt lm LM.rightInner LM.rightInner).

Definition eyeGapRatio : num := div innerGap (or eyeW eps).

Definition eyeGapErr : num := abs (sub eyeGapRatio (dec 1 1)).

(** The record [computeMetrics] returns when every lookup succeeds. *)
Definition metrics : Metrics :=
  mkMetrics (scoreFromError E symmetryNorm (dec 4 100))
            (scoreFromError E goldenErr (dec 15 100))
            (scoreFromError E fifthsErr (dec 18 100))
            (scoreFromError E eyeGapErr (dec 25 100))
            (mkRaw lw fifths eyeGapRatio symmetryNorm).


End Measurements.

(** The width of the two eyes as the horizontal distances between their
    corners, averaged. *)
Definition cornerEyeW (lm : list landmark) : num :=
  div (add (abs (sub (at_x lm LM.leftOuter) (at_x lm LM.leftInner)))
           (abs (sub (at_x lm LM.rightInner) (at_x lm LM.rightOuter))))
      (dec 2 1).

(** A zero of either sign. *)
Definition is_zero (a : num) : bool :=
  match a with S754_zero _ => true | _ => false end.

(** A score is NaN or lies in [0,100]. *)
Definition score_or_NaN (s : num) : Prop :=
  s = NaN \/ (leb zero s = true /\ leb s (dec 100 1) = true).

(** Four scores with no raw measurements of interest. *)
Definition scores (s1 s2 s3 s4 : num) : Metrics :=
  mkMetrics s1 s2 s3 s4 (mkRaw NaN NaN NaN NaN).

(** *** The specification's wording, in exact arithmetic *)

(** The real number a finite double stands for, as an integer multiple of
    [2^-1074]. *)
Definition exact (a : num) : Z :=
  match a with
  | S754_finite s m e => cond_Zopp s (Z.shiftl (Zpos m) (e + 1074))
  | _ => 0
  end.





(** The width of an eye as the horizontal extent of its contour. *)
Definition extent (lm : list landmark) (contour : list nat) : num :=
  match map (at_x lm) contour with
  | [] => zero
  | a :: rest => sub (fold_left max rest a) (fold_left min rest a)
  end.

(** faceWidth / averageEyeWidth with the eye widths measured on the
    contours. *)
Definition fifths_of_contours (E : MathImpl) (lm : list landmark) : num :=
  div (faceWidth E lm)
      (div (add (extent lm LM.leftEye) (extent lm LM.rightEye)) (dec 2 1)).

(** *** A plain engine *)

(** The Taylor polynomial of [exp] of degree [n] in Horner form. *)
Fixpoint taylor (n : nat) (k : Z) (a : num) : num :=
  match n with
  | O => dec 1 1
  | S n' => add (dec 1 1) (mul (div a (of_Z k)) (taylor n' (k + 1) a))
  end.

Fixpoint square_times (n : nat) (a : num) : num :=
  match n with
  | O => a
  | S n' => square_times n' (mul a a)
  end.

(** [exp(a) = exp(a / 1024) ^ 1024] with a polynomial for the inner one,
    and [hypot] by the textbook formula away from the axes. *)
Definition plain : MathImpl :=
  mkMathImpl
    (fun a => square_times 10 (taylor 12 1 (div a (dec 1024 1))))
    (fun a b =>
       match a, b with
       | S754_zero _, _ => abs b
       | _, S754_zero _ => abs a
       | _, _ => SFsqrt prec emax (add (mul a a) (mul b b))
       end).

(** *** Landmark sets *)

Fixpoint coords (tbl : list (nat * (Z * Z))) (other : Z * Z) (i : nat) : Z * Z :=
  match tbl with
  | [] => other
  | (j, p) :: rest => if Nat.eqb j i then p else coords rest other i
  end.

(** A mesh of 468 keypoints at integer positions (rounded to doubles): the
    table's points at their indices and [other] everywhere else. *)
Definition mesh (tbl : list (nat * (Z * Z))) (other : Z * Z) : list landmark :=
  map (fun i => let p := coords tbl other i in
                mkLandmark (of_Z (fst p)) (of_Z (snd p)))
      (seq 0 mesh_size).

Definition put (i : nat) (px py : Z) : nat * (Z * Z) := (i, (px, py)).

(** A mirror-symmetric face about [x = 3500]: width 7000, bridge-to-chin
    distance 8090, both eyes 1400 wide and 1400 apart. *)
Definition regular_table : list (nat * (Z * Z)) :=
  [ put 234 0 3500; put 454 7000 3500;
    put 168 3500 0; put 152 3500 8090; put 1 3500 4060;
    put 33 1400 2800; put 133 2800 2800; put 159 2100 2590;
    put 145 2100 3010; put 153 2450 3010; put 144 1750 3010;
    put 263 5600 2800; put 362 4200 2800; put 386 4900 2590;
    put 374 4900 3010; put 380 4550 3010; put 373 5250 3010;
    put 55 2450 2100; put 285 4550 2100;
    put 97 3150 4200; put 326 3850 4200 ].

Definition regular_face : list landmark := mesh regular_table (3500, 3500)%Z.

(** The regular face with one contour point of the left eye (159) moved
    outside the eye's outer corner. *)
Definition bulged_face : list landmark :=
  mesh (put 159 700 2590 :: regular_table) (3500, 3500)%Z.





(** The regular face as a detector's mesh of [[x, y, z]] triples. *)
Definition regular_mesh : list (num * num * num) :=
  map (fun p => (x p, y p, zero)) regular_face.

End B64M.
(** ** Basic facts about numbers *)

Lemma div_fin (a b : R) : b <> 0 -> Num.div (Fin a) (Fin b) = Fin (a / b).
Proof.
  intros Hb. unfold Num.div. destruct (Req_dec_T b 0); [contradiction | reflexivity].
Qed.

Lemma or_fin (d : R) : Num.or (Fin d) (Fin 1e-6) = Fin (den d).
Proof.
  unfold Num.or, den. destruct (Req_dec_T d 0); reflexivity.
Qed.

Lemma den_neq_0 (d : R) : den d <> 0.
Proof.
  unfold den. destruct (Req_dec_T d 0); [lra | assumption].
Qed.

Lemma den_nonzero (d : R) : d <> 0 -> den d = d.
Proof.
  intros Hd. unfold den. destruct (Req_dec_T d 0); [contradiction | reflexivity].
Qed.

Lemma hyp_nonneg (a b : R) : 0 <= hyp a b.
Proof. apply sqrt_pos. Qed.

Lemma hyp_0_r (a : R) : hyp a 0 = Rabs a.
Proof.
  unfold hyp. replace (a * a + 0 * 0) with (Rsqr a) by (unfold Rsqr; ring).
  apply sqrt_Rsqr_abs.
Qed.

Lemma hyp_0_0 : hyp 0 0 = 0.
Proof. rewrite hyp_0_r. apply Rabs_R0. Qed.

Lemma dist_fin (a b c d : R) :
  dist (Fin a, Fin b) (Fin c, Fin d) = Fin (hyp (a - c) (b - d)).
Proof. reflexivity. Qed.

Lemma scoreFromError_fin (e t : R) :
  t <> 0 -> scoreFromError (Fin e) (Fin t) = Fin (scoreR e t).
Proof.
  intros Ht. unfold scoreFromError, clamp, scoreR.
  cbn [Num.mul Num.neg].
  rewrite div_fin by nra.
  reflexivity.
Qed.

Lemma scoreR_formula (e t : R) :
  t <> 0 -> scoreR e t = 100 * exp (- (e * e) / (2 * t * t)).
Proof.
  intros Ht. unfold scoreR.
  set (q := - (e * e) / (2 * t * t)).
  assert (Hq : q <= 0).
  { unfold q, Rdiv. assert (0 < / (2 * t * t)) by (apply Rinv_0_lt_compat; nra).
    nra. }
  assert (Hexp : 0 < exp q <= 1).
  { split; [apply exp_pos|].
    rewrite <- exp_0. destruct Hq as [Hlt | Heq].
    - left. now apply exp_increasing.
    - rewrite Heq. right. reflexivity. }
  rewrite Rmin_right by lra. rewrite Rmax_right by lra. reflexivity.
Qed.

Lemma scoreR_zero (t : R) : t <> 0 -> scoreR 0 t = 100.
Proof.
  intros Ht. rewrite scoreR_formula by assumption.
  replace (- (0 * 0) / (2 * t * t)) with 0 by (unfold Rdiv; ring).
  rewrite exp_0. ring.
Qed.

(** ** Reading a finite landmark set *)

Lemma finite_at_nth (lm : list Landmark.t) (i : nat) :
  finite_at lm i = true ->
  nth_error lm i = Some (Landmark.mk (Fin (cx lm i)) (Fin (cy lm i))).
Proof.
  unfold finite_at, cx, cy.
  destruct (nth_error lm i) as [[[] []]|]; try discriminate; reflexivity.
Qed.

Lemma xy_fin (lm : list Landmark.t) (i j : nat) :
  finite_at lm i = true -> finite_at lm j = true ->
  xy lm i j = Normal (Fin (cx lm i), Fin (cy lm j)).
Proof.
  intros Hi Hj. unfold xy, getx, gety.
  rewrite (finite_at_nth lm i Hi), (finite_at_nth lm j Hj). reflexivity.
Qed.

Lemma registry_finite_In (lm : list Landmark.t) (i : nat) :
  registry_finite lm -> In i LM.indices -> finite_at lm i = true.
Proof.
  unfold registry_finite. intros H Hi.
  rewrite forallb_forall in H. now apply H.
Qed.

Lemma getPts_fin (lm : list Landmark.t) (idxs : list nat) :
  Forall (fun i => finite_at lm i = true) idxs ->
  getPts lm idxs = Normal (map (fun i => fin_point (cx lm i, cy lm i)) idxs).
Proof.
  unfold getPts. induction 1 as [| i idxs Hi _ IH]; [reflexivity |].
  cbn [mapM map]. rewrite (xy_fin lm i i Hi Hi). cbn [bind].
  rewrite IH. reflexivity.
Qed.

Lemma fold_points_fin (ps : list (R * R)) (a b : R) :
  fold_left (fun acc p : point =>
               (Num.add (fst acc) (fst p), Num.add (snd acc) (snd p)))
            (map fin_point ps) (Fin a, Fin b)
  = (Fin (a + Rsum (map fst ps)), Fin (b + Rsum (map snd ps))).
Proof.
  revert a b. induction ps as [| [px py] ps IH]; intros a b; cbn [map fold_left Rsum fold_right].
  - now rewrite !Rplus_0_r.
  - cbn [fin_point fst snd Num.add]. rewrite IH. cbn [fst snd].
    now rewrite !Rplus_assoc.
Qed.

Lemma INR_length_neq_0 {A : Type} (l : list A) : l <> [] -> INR (List.length l) <> 0.
Proof.
  destruct l; [congruence |]. intros _.
  apply not_0_INR. discriminate.
Qed.

Lemma meanPoint_fin (ps : list (R * R)) :
  ps <> [] ->
  meanPoint (map fin_point ps)
  = fin_point (Rsum (map fst ps) / INR (List.length ps),
               Rsum (map snd ps) / INR (List.length ps)).
Proof.
  intros Hne. unfold meanPoint. cbv zeta.
  replace (Fin 0, Fin 0) with (Fin 0, Fin 0) by reflexivity.
  rewrite fold_points_fin. cbn [fst snd]. rewrite length_map.
  rewrite !div_fin by now apply INR_length_neq_0.
  unfold fin_point. cbn [fst snd]. now rewrite !Rplus_0_l.
Qed.

Lemma fold_add_fin (l : list R) (a : R) :
  fold_left (fun u v => Num.add u v) (map Fin l) (Fin a) = Fin (a + Rsum l).
Proof.
  revert a. induction l as [| r l IH]; intros a; cbn [map fold_left Rsum fold_right].
  - now rewrite Rplus_0_r.
  - cbn [Num.add]. rewrite IH. now rewrite Rplus_assoc.
Qed.

Lemma meanPoint_idxs (lm : list Landmark.t) (idxs : list nat) :
  idxs <> [] ->
  meanPoint (map (fun i => fin_point (cx lm i, cy lm i)) idxs)
  = (Fin (meanX lm idxs),
     Fin (Rsum (map (cy lm) idxs) / INR (List.length idxs))).
Proof.
  intros Hne.
  rewrite <- (map_map (fun i => (cx lm i, cy lm i)) fin_point).
  rewrite meanPoint_fin by (destruct idxs; [congruence | discriminate]).
  rewrite !map_map, length_map. reflexivity.
Qed.

Lemma symErr_fin (lm : list Landmark.t) (m : R) (l r : nat) :
  finite_at lm l = true -> finite_at lm r = true ->
  symErr lm (Fin m) (l, r)
  = Normal (Fin (hyp (cx lm l - (2 * m - cx lm r)) (cy lm l - cy lm r))).
Proof.
  intros Hl Hr. unfold symErr. rewrite !xy_fin by assumption. reflexivity.
Qed.

Lemma mapM_symErr_fin (lm : list Landmark.t) (m : R) (prs : list (nat * nat)) :
  Forall (fun lr => finite_at lm (fst lr) = true /\ finite_at lm (snd lr) = true)
         prs ->
  mapM (symErr lm (Fin m)) prs
  = Normal (map Fin
              (map (fun lr : nat * nat =>
                      let (l, r) := lr in
                      hyp (cx lm l - (2 * m - cx lm r)) (cy lm l - cy lm r))
                   prs)).
Proof.
  induction 1 as [| [l r] prs [Hl Hr] _ IH]; [reflexivity |].
  cbn [mapM map]. cbn [fst snd] in Hl, Hr.
  rewrite symErr_fin by assumption. cbn [bind]. rewrite IH. reflexivity.
Qed.

Lemma hyp_diag_r (a b : R) : hyp a (b - b) = Rabs a.
Proof. rewrite Rminus_diag. apply hyp_0_r. Qed.

Lemma computeMetrics_eval (lm : list Landmark.t) :
  registry_finite lm ->
  computeMetrics lm =
  Normal (mkMetrics
            (Fin (scoreR (symmetryNormR lm) 0.04))
            (Fin (scoreR (goldenErrR lm) 0.15))
            (Fin (scoreR (fifthsErrR lm) 0.18))
            (Fin (scoreR (eyeGapErrR lm) 0.25))
            (mkRaw (Fin (lwR lm)) (Fin (fifthsR lm))
                   (Fin (eyeGapRatioR lm)) (Fin (symmetryNormR lm)))).
Proof.
  intros Hreg.
  assert (Hfin : forall i, In i LM.indices -> finite_at lm i = true)
    by (intros i; now apply registry_finite_In).
  unfold computeMetrics. cbv zeta.
  rewrite !getPts_fin
    by (repeat constructor; apply Hfin; cbn; tauto).
  rewrite !xy_fin by (apply Hfin; cbn; tauto).
  cbn [bind].
  rewrite !meanPoint_idxs by discriminate.
  cbn [fst snd Num.add]. rewrite (div_fin _ 2) by lra.
  rewrite mapM_symErr_fin
    by (repeat constructor; cbn [fst snd]; apply Hfin; cbn; tauto).
  cbn [bind].
  rewrite fold_add_fin, !length_map, Rplus_0_l.
  rewrite !dist_fin, !hyp_diag_r.
  cbn [Num.add Num.mul]. rewrite (div_fin _ 2) by lra.
  rewrite !or_fin.
  rewrite (div_fin _ (INR _)) by (apply INR_length_neq_0; discriminate).
  rewrite !(div_fin _ (den _)) by apply den_neq_0.
  cbn [Num.sub Num.add Num.neg Num.abs].
  rewrite !div_fin by lra.
  rewrite !scoreFromError_fin by lra.
  reflexivity.
Qed.

(** ** Landmark sets given by coordinates *)

Lemma nth_error_seq_lt (s n i : nat) :
  (i < n)%nat -> nth_error (seq s n) i = Some (s + i)%nat.
Proof.
  revert s i. induction n as [| n IH]; intros s i Hi; [lia |].
  destruct i as [| i]; cbn [seq nth_error].
  - f_equal. lia.
  - rewrite IH by lia. f_equal. lia.
Qed.

Lemma nth_error_landmarks_of (f : nat -> R * R) (n i : nat) :
  (i < n)%nat ->
  nth_error (landmarks_of f n) i
  = Some (Landmark.mk (Fin (fst (f i))) (Fin (snd (f i)))).
Proof.
  intros Hi. unfold landmarks_of.
  rewrite nth_error_map, nth_error_seq_lt by assumption. reflexivity.
Qed.

Lemma cx_landmarks_of (f : nat -> R * R) (n i : nat) :
  (i < n)%nat -> cx (landmarks_of f n) i = fst (f i).
Proof.
  intros Hi. unfold cx. now rewrite nth_error_landmarks_of.
Qed.

Lemma cy_landmarks_of (f : nat -> R * R) (n i : nat) :
  (i < n)%nat -> cy (landmarks_of f n) i = snd (f i).
Proof.
  intros Hi. unfold cy. now rewrite nth_error_landmarks_of.
Qed.

Lemma indices_in_mesh : Forall (fun i => (i < mesh_size)%nat) LM.indices.
Proof.
  unfold mesh_size. repeat constructor; apply Nat.ltb_lt; reflexivity.
Qed.

Lemma registry_finite_landmarks_of (f : nat -> R * R) :
  registry_finite (landmarks_of f mesh_size).
Proof.
  unfold registry_finite. apply forallb_forall. intros i Hi.
  pose proof indices_in_mesh as Hall. rewrite Forall_forall in Hall.
  unfold finite_at. now rewrite nth_error_landmarks_of by now apply Hall.
Qed.

(** Evaluation of the coordinates of a concrete landmark set. *)
Ltac face_coords :=
  cbv delta [LM.leftEye LM.rightEye LM.leftInner LM.rightInner LM.leftOuter
             LM.rightOuter LM.noseBridgeTop LM.noseTip LM.noseLeft
             LM.noseRight LM.chin LM.faceLeft LM.faceRight LM.browLeftMid
             LM.browRightMid pairs];
  cbn [map fst snd List.length];
  rewrite ?cx_landmarks_of, ?cy_landmarks_of
    by (unfold mesh_size; apply Nat.ltb_lt; reflexivity);
  cbn [coords ideal_table place Nat.eqb fst snd].

Lemma Rabs_eq (a b : R) : 0 <= b -> a = b \/ a = - b -> Rabs a = b.
Proof.
  intros Hb [-> | ->]; [now apply Rabs_right, Rle_ge |].
  rewrite Rabs_Ropp. now apply Rabs_right, Rle_ge.
Qed.

Lemma hyp_0_l (b : R) : hyp 0 b = Rabs b.
Proof.
  unfold hyp. replace (0 * 0 + b * b) with (Rsqr b) by (unfold Rsqr; ring).
  apply sqrt_Rsqr_abs.
Qed.

Lemma hyp_horizontal (a b c : R) : 0 <= c -> b = 0 -> a = c \/ a = - c -> hyp a b = c.
Proof.
  intros Hc -> Ha. rewrite hyp_0_r. now apply Rabs_eq.
Qed.

Lemma hyp_vertical (a b c : R) : 0 <= c -> a = 0 -> b = c \/ b = - c -> hyp a b = c.
Proof.
  intros Hc -> Hb. rewrite hyp_0_l. now apply Rabs_eq.
Qed.

Lemma ideal_face_measurements :
  faceWidthR ideal_face = 100
  /\ faceLengthR ideal_face = 161.8
  /\ midlineR ideal_face = 50
  /\ eyeWR ideal_face = 20
  /\ innerGapR ideal_face = 20.
Proof.
  unfold faceWidthR, faceLengthR, midlineR, eyeWR, innerGapR, leftEyeWR,
    rightEyeWR, distR, meanX, ideal_face.
  face_coords.
  rewrite (hyp_horizontal _ _ 100), (hyp_vertical _ _ (809 / 7)),
    (hyp_horizontal _ _ 20), !(Rabs_eq _ 20) by lra.
  unfold Rsum. cbn [fold_right INR]. repeat split; lra.
Qed.

(** ** Further facts about numbers *)

Lemma neg_involutive (a : num) : Num.neg (Num.neg a) = a.
Proof. destruct a; cbn; try reflexivity. now rewrite Ropp_involutive. Qed.

Lemma scale_inf_opp (x : R) : Num.scale_inf (- x) = Num.neg (Num.scale_inf x).
Proof.
  unfold Num.scale_inf.
  destruct (Req_dec_T (- x) 0), (Req_dec_T x 0); try lra; try reflexivity.
  destruct (Rlt_dec 0 (- x)), (Rlt_dec 0 x); try lra; reflexivity.
Qed.

Lemma mul_neg_l (a b : num) : Num.mul (Num.neg a) b = Num.neg (Num.mul a b).
Proof.
  destruct a as [x | | |], b as [y | | |]; cbn [Num.neg Num.mul];
    rewrite ?scale_inf_opp, ?neg_involutive; try reflexivity.
  f_equal. ring.
Qed.

Lemma mul_neg_r (a b : num) : Num.mul a (Num.neg b) = Num.neg (Num.mul a b).
Proof.
  destruct a as [x | | |], b as [y | | |]; cbn [Num.neg Num.mul];
    rewrite ?scale_inf_opp, ?neg_involutive; try reflexivity.
  f_equal. ring.
Qed.


(** ** NaN operands *)

Lemma add_NaN_r (a : num) : Num.add a NaN = NaN.
Proof. destruct a; reflexivity. Qed.

Lemma mul_NaN_r (a : num) : Num.mul a NaN = NaN.
Proof. destruct a; reflexivity. Qed.

(** ** Lookups that succeed and lookups that throw *)

Lemma nth_error_nth_lt (lm : list Landmark.t) (i : nat) :
  (i < List.length lm)%nat -> nth_error lm i = Some (nth i lm no_landmark).
Proof. intros Hi. now apply nth_error_nth'. Qed.

Lemma xy_present (lm : list Landmark.t) (i j : nat) :
  (i < List.length lm)%nat -> (j < List.length lm)%nat ->
  xy lm i j = Normal (Landmark.x (nth i lm no_landmark),
                      Landmark.y (nth j lm no_landmark)).
Proof.
  intros Hi Hj. unfold xy, getx, gety.
  now rewrite (nth_error_nth_lt lm i Hi), (nth_error_nth_lt lm j Hj).
Qed.

Lemma xy_absent_l (lm : list Landmark.t) (i j : nat) :
  (List.length lm <= i)%nat -> xy lm i j = Throw TypeError.
Proof.
  intros Hi. unfold xy, getx.
  apply nth_error_None in Hi. now rewrite Hi.
Qed.

Lemma xy_cases (lm : list Landmark.t) (i j : nat) :
  xy lm i j = Throw TypeError \/ exists p, xy lm i j = Normal p.
Proof.
  unfold xy, getx, gety.
  destruct (nth_error lm i), (nth_error lm j); cbn [bind];
    first [now left | right; eexists; reflexivity].
Qed.

Lemma getPts_present (lm : list Landmark.t) (idxs : list nat) :
  Forall (fun i => (i < List.length lm)%nat) idxs ->
  getPts lm idxs = Normal (map (point_at lm) idxs).
Proof.
  unfold getPts. induction 1 as [| i idxs Hi _ IH]; [reflexivity |].
  cbn [mapM map]. rewrite (xy_present lm i i Hi Hi). cbn [bind].
  rewrite IH. reflexivity.
Qed.

Lemma getPts_absent (lm : list Landmark.t) (idxs : list nat) :
  Exists (fun i => (List.length lm <= i)%nat) idxs ->
  getPts lm idxs = Throw TypeError.
Proof.
  unfold getPts. induction 1 as [i idxs Hi | i idxs _ IH]; cbn [mapM].
  - now rewrite xy_absent_l.
  - destruct (xy_cases lm i i) as [-> | [p ->]]; [reflexivity |].
    cbn [bind]. now rewrite IH.
Qed.

Lemma getPts_cases (lm : list Landmark.t) (idxs : list nat) :
  getPts lm idxs = Throw TypeError \/ exists pts, getPts lm idxs = Normal pts.
Proof.
  unfold getPts. induction idxs as [| i idxs IH]; cbn [mapM];
    [right; eexists; reflexivity |].
  destruct (xy_cases lm i i) as [-> | [p ->]]; [now left |].
  cbn [bind]. destruct IH as [-> | [pts ->]]; cbn [bind];
    [now left | right; eexists; reflexivity].
Qed.

Lemma indices_at_most_454 : Forall (fun i => (i <= 454)%nat) LM.indices.
Proof.
  unfold LM.indices. cbn [app].
  repeat apply Forall_cons; try apply Forall_nil; apply Nat.leb_le; reflexivity.
Qed.

(** ** Meshes *)

Lemma span_fin (a b c d : R) :
  Legacy.span (Landmark.mk (Fin a) (Fin b)) (Landmark.mk (Fin c) (Fin d))
  = Fin (hyp (c - a) (d - b)).
Proof.
  unfold Legacy.span. cbn [Landmark.x Landmark.y Num.sub Num.add Num.neg Num.pow2].
  unfold Num.sqrt.
  destruct (Rlt_dec _ 0) as [Hneg | _]; [| reflexivity].
  pose proof (Rle_0_sqr (c + - a)) as H1. pose proof (Rle_0_sqr (d + - b)) as H2.
  unfold Rsqr in H1, H2. lra.
Qed.

Lemma at_index_fin (lm : list Landmark.t) (i : nat) :
  finite_at lm i = true ->
  Legacy.at_index lm i = Normal (Landmark.mk (Fin (cx lm i)) (Fin (cy lm i))).
Proof.
  intros Hi. unfold Legacy.at_index. now rewrite (finite_at_nth lm i Hi).
Qed.

Lemma at_index_cases (lm : list Landmark.t) (i : nat) :
  Legacy.at_index lm i = Throw TypeError
  \/ exists p, Legacy.at_index lm i = Normal p.
Proof.
  unfold Legacy.at_index. destruct (nth_error lm i);
    [right; eexists; reflexivity | now left].
Qed.

Lemma legacy_finite_In (lm : list Landmark.t) (i : nat) :
  legacy_finite lm -> In i legacy_indices -> finite_at lm i = true.
Proof.
  unfold legacy_finite. intros H Hi.
  rewrite forallb_forall in H. now apply H.
Qed.

Lemma distR_nonneg (lm : list Landmark.t) (i j : nat) : 0 <= distR lm i j.
Proof. apply hyp_nonneg. Qed.

Lemma calculateFacialMetrics_eval
      (toFixed : num -> nat -> string) (lm : list Landmark.t) :
  legacy_finite lm ->
  exists eyeDistance faceHeight faceWidth mouthWidth l r,
    eyeDistance = Fin (eyeDistanceR lm) /\ faceHeight = Fin (faceHeightR lm)
    /\ faceWidth = Fin (cheekWidthR lm) /\ mouthWidth = Fin (mouthWidthR lm)
    /\ l = Fin (leftEyeToNoseR lm) /\ r = Fin (rightEyeToNoseR lm)
    /\ Legacy.calculateFacialMetrics toFixed lm
       = Normal
           (let faceRatio := Num.div faceHeight faceWidth in
            let eyeToMouthRatio := Num.div eyeDistance mouthWidth in
            let symmetryScore :=
              Num.sub (Fin 1) (Num.div (Num.abs (Num.sub l r)) (Num.max l r)) in
            let proportionScore :=
              Num.mul (Num.max (Fin 0)
                         (Num.sub (Fin 1)
                            (Num.div (Num.abs (Num.sub faceRatio (Fin 1.618)))
                                     (Fin 1.618))))
                      (Fin 100) in
            let symmetryPercentage := Num.mul symmetryScore (Fin 100) in
            let harmonyScore :=
              Num.mul (Num.max (Fin 0)
                         (Num.sub (Fin 1)
                            (Num.div (Num.abs (Num.sub eyeToMouthRatio (Fin 1.5)))
                                     (Fin 1.5))))
                      (Fin 100) in
            let overallScore :=
              Num.add (Num.add (Num.mul proportionScore (Fin 0.4))
                               (Num.mul symmetryPercentage (Fin 0.4)))
                      (Num.mul harmonyScore (Fin 0.2)) in
            Legacy.mkResult
              (Num.min (Fin 95) (Num.max (Fin 60) overallScore))
              proportionScore symmetryPercentage harmonyScore
              (Legacy.determineFaceShape faceRatio)
              (Legacy.mkDetails (toFixed faceRatio 2%nat)
                                (toFixed eyeDistance 0%nat)
                                (toFixed faceWidth 0%nat)
                                (toFixed faceHeight 0%nat))).
Proof.
  intros Hfin.
  assert (H : forall i, In i legacy_indices -> finite_at lm i = true)
    by (intros i; now apply legacy_finite_In).
  do 6 eexists. repeat (split; [reflexivity |]).
  unfold Legacy.calculateFacialMetrics.
  rewrite !at_index_fin by (apply H; cbn; tauto).
  cbn [bind]. rewrite !span_fin. reflexivity.
Qed.

Lemma div_zero_zero : Num.div (Fin 0) (Fin 0) = NaN.
Proof.
  unfold Num.div, Num.scale_inf.
  destruct (Req_dec_T 0 0); [reflexivity | contradiction].
Qed.

Lemma div_fin_zero (a : R) :
  0 <= a -> Num.div (Fin a) (Fin 0) = NaN \/ Num.div (Fin a) (Fin 0) = PInf.
Proof.
  intros Ha. unfold Num.div, Num.scale_inf.
  destruct (Req_dec_T 0 0); [| contradiction].
  destruct (Req_dec_T a 0); [now left |].
  destruct (Rlt_dec 0 a); [now right | lra].
Qed.

Lemma geb_fin (x c : R) :
  Num.geb (Fin x) (Fin c) = if Rlt_dec x c then false else true.
Proof. cbn. now destruct (Rlt_dec x c). Qed.

Lemma legacy_finite_landmarks_of (f : nat -> R * R) :
  legacy_finite (landmarks_of f mesh_size).
Proof.
  unfold legacy_finite, legacy_indices. apply forallb_forall. intros i Hi.
  assert (Hlt : (i < mesh_size)%nat).
  { unfold mesh_size. cbn [In] in Hi.
    repeat (destruct Hi as [<- | Hi]; [apply Nat.ltb_lt; reflexivity |]).
    contradiction. }
  unfold finite_at. now rewrite nth_error_landmarks_of.
Qed.

Lemma collapsed_face_legacy :
  cheekWidthR collapsed_face = 0 /\ faceHeightR collapsed_face = 0.
Proof.
  unfold cheekWidthR, faceHeightR, distR, collapsed_face. face_coords.
  rewrite Rminus_diag, hyp_0_0. split; reflexivity.
Qed.

Lemma min_max_NaN (lo hi : num) : Num.min hi (Num.max lo NaN) = NaN.
Proof. destruct lo, hi; reflexivity. Qed.

Lemma max_NaN_r (a : num) : Num.max a NaN = NaN.
Proof. destruct a; reflexivity. Qed.

Lemma at_index_present (lm : list Landmark.t) (i : nat) :
  (i < List.length lm)%nat ->
  Legacy.at_index lm i = Normal (nth i lm no_landmark).
Proof.
  intros Hi. unfold Legacy.at_index. now rewrite (nth_error_nth_lt lm i Hi).
Qed.

Lemma at_index_absent (lm : list Landmark.t) (i : nat) :
  (List.length lm <= i)%nat -> Legacy.at_index lm i = Throw TypeError.
Proof.
  intros Hi. unfold Legacy.at_index. apply nth_error_None in Hi. now rewrite Hi.
Qed.

Lemma legacy_indices_at_most_454 :
  Forall (fun i => (i <= 454)%nat) legacy_indices.
Proof.
  unfold legacy_indices.
  repeat apply Forall_cons; try apply Forall_nil; apply Nat.leb_le; reflexivity.
Qed.

Lemma ltb_fin (x c : R) :
  Num.ltb (Fin x) (Fin c) = if Rlt_dec x c then true else false.
Proof. reflexivity. Qed.

Lemma high_unit_score (q c : R) :
  0 < c -> 95 <= Rmax 0 (1 - Rabs q / c) * 100 -> Rabs q <= 0.05 * c.
Proof.
  intros Hc H.
  assert (Hq : 0.95 <= 1 - Rabs q / c).
  { unfold Rmax in H. destruct (Rle_dec 0 (1 - Rabs q / c)); lra. }
  assert (Hdiv : Rabs q / c <= 0.05) by lra.
  assert (Heq : Rabs q = Rabs q / c * c) by (field; lra).
  rewrite Heq. apply Rmult_le_compat_r; lra.
Qed.

Lemma golden_legacy_face_measurements :
  faceHeightR golden_legacy_face = 161.8
  /\ cheekWidthR golden_legacy_face = 100.
Proof.
  unfold faceHeightR, cheekWidthR, distR, golden_legacy_face. face_coords.
  rewrite (hyp_vertical _ _ 161.8), (hyp_horizontal _ _ 100) by lra.
  split; reflexivity.
Qed.

(** * Facts about the binary64 engine *)

Section B64Facts.

Import B64 B64M.

(** ** Arithmetic *)

Lemma b64_ltb_leb (a b : num) : ltb a b = true -> leb a b = true.
Proof.
  unfold ltb, leb, SFltb, SFleb.
  destruct (SFcompare a b) as [[] |]; congruence.
Qed.

Lemma b64_sub_diag (a : num) : is_finite a = true -> sub a a = zero.
Proof.
  destruct a as [s | s | | s m e]; try discriminate; intros _.
  - now destruct s.
  - unfold sub, SFsub. cbv zeta. now rewrite Z.sub_diag.
Qed.





(** The doubles that the numeric literals of the code denote. *)
Lemma b64_literals :
  dec 1 1000000 = S754_finite false 4722366482869645 (-72)
  /\ dec 4 100 = S754_finite false 5764607523034235 (-57)
  /\ dec 15 100 = S754_finite false 5404319552844595 (-55)
  /\ dec 18 100 = S754_finite false 6485183463413514 (-55)
  /\ dec 25 100 = S754_finite false 4503599627370496 (-54)
  /\ dec 14 10 = S754_finite false 6305039478318694 (-52)
  /\ dec 1618 1000 = S754_finite false 7286824197085463 (-52)
  /\ dec 1 1 = S754_finite false 4503599627370496 (-52)
  /\ dec 2 1 = S754_finite false 4503599627370496 (-51)
  /\ dec 5 1 = S754_finite false 5629499534213120 (-50)
  /\ dec 100 1 = S754_finite false 7036874417766400 (-46).
Proof. repeat split; vm_compute; reflexivity. Qed.

Lemma b64_sum_zeros (values : list num) (s : bool) :
  forallb is_zero values = true ->
  falsy (fold_left (fun a b => add a b) values (S754_zero s)) = true.
Proof.
  revert s. induction values as [| v values IH]; intros s Hall; [reflexivity |].
  cbn [forallb] in Hall. apply andb_prop in Hall. destruct Hall as [Hv Hall].
  destruct v as [sv | | |]; try discriminate.
  cbn [fold_left].
  replace (add (S754_zero s) (S754_zero sv))
    with (S754_zero (if Bool.eqb s sv then s else false))
    by (now destruct s, sv).
  now apply IH.
Qed.

(** ** Clamping *)

Lemma b64_max_zero_cases (m : num) :
  max zero m = NaN \/ max zero m = zero \/ (max zero m = m /\ ltb zero m = true).
Proof.
  unfold max, zero.
  destruct m as [s | s | | s m e]; cbn [andb]; auto;
    match goal with |- context [if ?c then _ else _] =>
      destruct c eqn:Hc end; auto.
Qed.

Lemma b64_min_cases (h v : num) :
  min h v = NaN \/ min h v = h \/ (min h v = v /\ ltb v h = true)
  \/ (exists sa sb, h = S754_zero sa /\ v = S754_zero sb).
Proof.
  unfold min.
  destruct h as [sa | sa | | sa ma ea], v as [s | s | | s m e]; auto;
    try (right; right; right; eauto; fail);
    match goal with |- context [if ?c then _ else _] =>
      destruct c eqn:Hc end; auto.
Qed.

(** A value clamped to [0,100] is NaN or lies in [0,100]. *)
Lemma b64_clamp_score (v : num) : score_or_NaN (clamp v zero (dec 100 1)).
Proof.
  unfold score_or_NaN, clamp.
  assert (Hh : ltb zero (dec 100 1) = true /\ leb zero (dec 100 1) = true
               /\ leb (dec 100 1) (dec 100 1) = true /\ leb zero zero = true)
    by (repeat split; vm_compute; reflexivity).
  destruct Hh as (H0h & H0h' & Hhh & H00).
  destruct (b64_min_cases (dec 100 1) v)
    as [Hm | [Hm | [(Hm & Hlt) | (sa & sb & Hm & _)]]];
    [| | | vm_compute in Hm; discriminate]; rewrite Hm.
  - left. reflexivity.
  - destruct (b64_max_zero_cases (dec 100 1)) as [Hx | [Hx | (Hx & _)]];
      rewrite Hx; auto.
  - apply b64_ltb_leb in Hlt.
    destruct (b64_max_zero_cases v) as [Hx | [Hx | (Hx & H0)]]; rewrite Hx; auto.
    right. split; [now apply b64_ltb_leb | exact Hlt].
Qed.

Section WithEngine.

Variable E : MathImpl.

Lemma b64_scoreFromError_range (err t : num) :
  score_or_NaN (scoreFromError E err t).
Proof. apply b64_clamp_score. Qed.



(** ** Distances *)

Lemma b64_hypot_zero_r (a : num) (sz : bool) :
  axis_exact E -> hypot E a (S754_zero sz) = abs a.
Proof.
  intros Hax. destruct a as [s | s | | s m e]; try reflexivity.
  cbn [hypot abs SFabs]. apply Hax.
Qed.



(** Two points on a horizontal line. *)
Lemma b64_dist_horizontal (a b c : num) :
  axis_exact E -> is_finite b = true -> dist E (a, b) (c, b) = abs (sub a c).
Proof.
  intros Hax Hb. unfold dist. cbn [fst snd].
  rewrite (b64_sub_diag b Hb). now apply b64_hypot_zero_r.
Qed.

Lemma b64_dist_axis_x (p q : point) (d : num) (sz : bool) :
  axis_exact E -> sub (fst p) (fst q) = d -> sub (snd p) (snd q) = S754_zero sz ->
  dist E p q = abs d.
Proof.
  intros Hax Hx Hy. unfold dist. rewrite Hx, Hy. now apply b64_hypot_zero_r.
Qed.


End WithEngine.

Lemma b64_plain_axis_exact : axis_exact plain.
Proof. intros s sz m e. split; reflexivity. Qed.


(** ** Lookups *)

Lemma b64_nth_error_long (lm : list landmark) (i : nat) :
  (i < List.length lm)%nat ->
  nth_error lm i = Some (nth i lm (mkLandmark NaN NaN)).
Proof. intros Hi. now apply nth_error_nth'. Qed.

Lemma b64_xy_long (lm : list landmark) (i j : nat) :
  (i < List.length lm)%nat -> (j < List.length lm)%nat ->
  xy lm i j = Normal (pt lm i j).
Proof.
  intros Hi Hj. unfold xy, getx, gety.
  rewrite (b64_nth_error_long lm i Hi), (b64_nth_error_long lm j Hj).
  reflexivity.
Qed.

Lemma b64_xy_short (lm : list landmark) (i j : nat) :
  (List.length lm <= i)%nat -> xy lm i j = Throw TypeError.
Proof.
  intros Hi. unfold xy, getx.
  apply nth_error_None in Hi. now rewrite Hi.
Qed.

Lemma b64_xy_cases (lm : list landmark) (i j : nat) :
  xy lm i j = Throw TypeError \/ exists p, xy lm i j = Normal p.
Proof.
  unfold xy, getx, gety.
  destruct (nth_error lm i); [| now left].
  destruct (nth_error lm j); [right; eexists; reflexivity | now left].
Qed.

Lemma b64_getPts_long (lm : list landmark) (idxs : list nat) :
  Forall (fun i => (i < List.length lm)%nat) idxs ->
  getPts lm idxs = Normal (map (fun i => pt lm i i) idxs).
Proof.
  unfold getPts. induction 1 as [| i idxs Hi _ IH]; [reflexivity |].
  cbn [mapM map]. rewrite (b64_xy_long lm i i Hi Hi). cbn [bind].
  now rewrite IH.
Qed.

Lemma b64_getPts_cases (lm : list landmark) (idxs : list nat) :
  getPts lm idxs = Throw TypeError \/ exists ps, getPts lm idxs = Normal ps.
Proof.
  unfold getPts. induction idxs as [| i idxs IH]; [right; eexists; reflexivity |].
  cbn [mapM].
  destruct (b64_xy_cases lm i i) as [-> | [p ->]]; [now left |]. cbn [bind].
  destruct IH as [-> | [ps ->]]; [now left | right; eexists; reflexivity].
Qed.

Lemma b64_mapM_symErr_long (E : MathImpl) (lm : list landmark) (mid : num)
      (prs : list (nat * nat)) :
  Forall (fun lr : nat * nat =>
            (fst lr < List.length lm)%nat /\ (snd lr < List.length lm)%nat) prs ->
  mapM (symErr E lm mid) prs
  = Normal (map (fun lr : nat * nat =>
                   dist E (pt lm (fst lr) (fst lr))
                        (sub (mul (dec 2 1) mid) (at_x lm (snd lr)),
                         at_y lm (snd lr)))
                prs).
Proof.
  induction 1 as [| [l r] prs [Hl Hr] _ IH]; [reflexivity |].
  cbn [mapM map symErr fst snd] in *.
  rewrite (b64_xy_long lm l l Hl Hl), (b64_xy_long lm r r Hr Hr). cbn [bind].
  now rewrite IH.
Qed.

Lemma b64_indices_below (n : nat) :
  (455 <= n)%nat -> Forall (fun i => (i < n)%nat) LM.indices.
Proof.
  intros Hn. pose proof indices_at_most_454 as H.
  eapply Forall_impl; [| exact H]. cbv beta. intros i Hi. lia.
Qed.

(** With at least 455 landmarks every lookup succeeds and the result is the
    record of the measurements. *)
Lemma b64_computeMetrics_long (E : MathImpl) (lm : list landmark) :
  (455 <= List.length lm)%nat -> computeMetrics E lm = Normal (metrics E lm).
Proof.
  intros Hlen.
  assert (Hin : forall i, In i LM.indices -> (i < List.length lm)%nat).
  { pose proof (b64_indices_below _ Hlen) as H.
    now rewrite Forall_forall in H. }
  unfold computeMetrics. cbv zeta.
  rewrite !b64_getPts_long
    by (repeat apply Forall_cons; try apply Forall_nil; apply Hin; cbn; tauto).
  cbn [bind].
  rewrite !b64_xy_long by (apply Hin; cbn; tauto).
  cbn [bind].
  rewrite b64_mapM_symErr_long
    by (repeat apply Forall_cons; try apply Forall_nil; cbn [fst snd];
        split; apply Hin; cbn; tauto).
  cbn [bind fst snd].
  unfold metrics, symmetryNorm, goldenErr, lw, fifthsErr, fifths, eyeGapErr,
    eyeGapRatio, innerGap, eyeW, leftEyeW, rightEyeW, faceLength, faceWidth,
    symErrs, mirror, midlineX, eyeCenter, eps.
  reflexivity.
Qed.

(** With fewer than 455 landmarks the lookup of the right face boundary
    (index 454), or an earlier one, throws. *)
Lemma b64_computeMetrics_short (E : MathImpl) (lm : list landmark) :
  (List.length lm < 455)%nat -> computeMetrics E lm = Throw TypeError.
Proof.
  intros Hlen. unfold computeMetrics. cbv zeta.
  destruct (b64_getPts_cases lm LM.leftEye) as [-> | [p1 ->]]; [reflexivity |].
  cbn [bind].
  destruct (b64_getPts_cases lm LM.rightEye) as [-> | [p2 ->]]; [reflexivity |].
  cbn [bind].
  destruct (b64_xy_cases lm LM.faceLeft LM.faceLeft) as [-> | [p3 ->]];
    [reflexivity |].
  cbn [bind].
  rewrite (b64_xy_short lm LM.faceRight) by (unfold LM.faceRight; lia).
  reflexivity.
Qed.

(** ** Centroids *)

Lemma b64_fold_pairs (ps : list point) (a b : num) :
  fold_left (fun (acc p : point) => (add (fst acc) (fst p), add (snd acc) (snd p)))
            ps (a, b)
  = (fold_left (fun u v => add u v) (map fst ps) a,
     fold_left (fun u v => add u v) (map snd ps) b).
Proof.
  revert a b. induction ps as [| p ps IH]; intros a b; [reflexivity |].
  cbn [fold_left map fst snd]. apply IH.
Qed.

Lemma b64_meanPoint_sums (ps : list point) :
  meanPoint ps
  = (div (sum (map fst ps)) (of_nat (List.length ps)),
     div (sum (map snd ps)) (of_nat (List.length ps))).
Proof.
  unfold meanPoint, sum. cbv zeta. now rewrite b64_fold_pairs.
Qed.

(** ** Multiplication by one *)

Lemma b64_digits_shift (m : positive) :
  Zdigits2 (Zpos (4503599627370496 * m)) = (Zdigits2 (Zpos m) + 52)%Z.
Proof.
  cbn [Pos.mul Zdigits2 digits2_pos]. lia.
Qed.



Lemma b64_iter_shr_52 (m : positive) :
  iter_pos shr_1 52 (Build_shr_record (Zpos (4503599627370496 * m)) false false)
  = Build_shr_record (Zpos m) false false.
Proof. reflexivity. Qed.

Lemma b64_mul_one (a : num) :
  valid_binary prec emax a = true -> mul a (dec 1 1) = a.
Proof.
  replace (dec 1 1) with (S754_finite false 4503599627370496 (-52))
    by (vm_compute; reflexivity).
  destruct a as [s | s | | s m e]; intros Hv;
    try reflexivity; try (now destruct s).
  cbn [valid_binary] in Hv. unfold bounded, canonical_mantissa in Hv.
  apply andb_prop in Hv. destruct Hv as [Hc Hb].
  apply Z.eqb_eq in Hc.
  assert (Hc' : fexp prec emax (Zdigits2 (Z.pos m) + e) = e) by exact Hc.
  unfold mul, SFmul. rewrite Bool.xorb_false_r, Pos.mul_comm.
  unfold binary_round_aux, shr_fexp.
  rewrite b64_digits_shift.
  replace (Zdigits2 (Z.pos m) + 52 + (e + -52))%Z with (Zdigits2 (Z.pos m) + e)%Z
    by lia.
  rewrite Hc'.
  replace (e - (e + -52))%Z with 52%Z by lia.
  cbn [shr_record_of_loc shr]. rewrite b64_iter_shr_52.
  cbn [shr_m loc_of_shr_record round_nearest_even].
  replace (e + -52 + 52)%Z with e by lia.
  rewrite Hc', Z.sub_diag. cbn [shr shr_m shr_record_of_loc].
  replace (e <=? emax - prec)%Z with true by (symmetry; exact Hb).
  reflexivity.
Qed.

End B64Facts.

(** * The properties of the specification, on binary64 numbers *)

Section Specification.

Import B64 B64M.

(** ** Score range *)




(** ** Aggregation *)

(** C2, as the code has it.  When the sum of the configuration's values, as
    the code computes it, is zero or NaN (as it is when every value is a
    zero and when the configuration is empty) the divisor is 1: the call
    does not fail and returns the weighted sum of the four scores divided
    by 1. *)
Theorem weightedScore_zero_sum_returns (m : Metrics) (w : jsobj) :
  falsy (sum (Object_values w)) = true
  \/ forallb is_zero (Object_values w) = true ->
  call (weightedScore m) w
  = Normal (div (add (add (add (mul (symmetryScore m) (ToNumber (prop w "symmetry")))
                               (mul (goldenScore m) (ToNumber (prop w "golden"))))
                          (mul (fifthsScore m) (ToNumber (prop w "fifths"))))
                     (mul (eyeGapScore m) (ToNumber (prop w "eyeGap"))))
                (dec 1 1)).
Proof.
  intros Hsum.
  assert (Hfalsy : falsy (sum (Object_values w)) = true).
  { destruct Hsum as [H | H]; [exact H |]. now apply b64_sum_zeros. }
  unfold call, weightedScore, or. cbv zeta. now rewrite Hfalsy.
Qed.

Lemma weightedScore_zero_sum_returns_witness :
  call (weightedScore (scores (dec 80 1) (dec 60 1) (dec 40 1) (dec 20 1)))
       (mkWeights zero zero zero zero)
  = Normal (div (add (add (add (mul (dec 80 1) zero) (mul (dec 60 1) zero))
                          (mul (dec 40 1) zero))
                     (mul (dec 20 1) zero))
                (dec 1 1)).
Proof.
  apply (weightedScore_zero_sum_returns
           (scores (dec 80 1) (dec 60 1) (dec 40 1) (dec 20 1))
           (mkWeights zero zero zero zero)).
  right. reflexivity.
Defined.

(** C2, as stated, fails: with the four weights all zero, and with an empty
    configuration, the aggregation returns a number (0, and NaN) instead of
    failing. *)
Lemma weightedScore_zero_weights_not_an_error :
  call (weightedScore (scores (dec 80 1) (dec 60 1) (dec 40 1) (dec 20 1)))
       (mkWeights zero zero zero zero)
  = Normal zero
  /\ call (weightedScore (scores (dec 80 1) (dec 60 1) (dec 40 1) (dec 20 1))) []
     = Normal NaN
  /\ call (weightedScore (scores (dec 80 1) (dec 60 1) (dec 40 1) (dec 20 1)))
          (mkWeights zero zero zero zero)
     <> Throw InvalidInputError.
Proof.
  split; [vm_compute; reflexivity |].
  split; [vm_compute; reflexivity | discriminate].
Qed.

(** C5, as the code has it.  For a configuration that has the four keys the
    code reads ([symmetry], [golden], [fifths], [eyeGap]) the aggregate is
    the binary64 value of [(s1*ws + s2*wg + s3*wf + s4*we) / (W || 1)], each
    operation rounded, where [W] is the sum of all the configuration's values
    taken from 0 in insertion order.  With the four weights all 1 and four
    scores that are doubles, it is the binary64 mean
    [(((s1 + s2) + s3) + s4) / 4]. *)
Theorem weightedScore_weighted_mean (w : jsobj) (s1 s2 s3 s4 ws wg wf we : num) :
  prop w "symmetry" = Some ws ->
  prop w "golden" = Some wg ->
  prop w "fifths" = Some wf ->
  prop w "eyeGap" = Some we ->
  call (weightedScore (scores s1 s2 s3 s4)) w
  = Normal (div (add (add (add (mul s1 ws) (mul s2 wg)) (mul s3 wf)) (mul s4 we))
                (or (sum (Object_values w)) (dec 1 1)))
  /\ (w = mkWeights (dec 1 1) (dec 1 1) (dec 1 1) (dec 1 1) ->
      valid_binary prec emax s1 = true -> valid_binary prec emax s2 = true ->
      valid_binary prec emax s3 = true -> valid_binary prec emax s4 = true ->
      call (weightedScore (scores s1 s2 s3 s4)) w
      = Normal (div (add (add (add s1 s2) s3) s4) (dec 4 1))).
Proof.
  intros Hs Hg Hf He.
  assert (Hgen :
    call (weightedScore (scores s1 s2 s3 s4)) w
    = Normal (div (add (add (add (mul s1 ws) (mul s2 wg)) (mul s3 wf)) (mul s4 we))
                  (or (sum (Object_values w)) (dec 1 1)))).
  { unfold call, weightedScore, scores. cbv zeta.
    cbn [symmetryScore goldenScore fifthsScore eyeGapScore].
    now rewrite Hs, Hg, Hf, He. }
  split; [exact Hgen |].
  intros Hw V1 V2 V3 V4. rewrite Hgen.
  rewrite Hw in Hs, Hg, Hf, He. cbn in Hs, Hg, Hf, He.
  injection Hs as <-. injection Hg as <-. injection Hf as <-. injection He as <-.
  rewrite !b64_mul_one by assumption.
  rewrite Hw.
  replace (or (sum (Object_values (mkWeights (dec 1 1) (dec 1 1) (dec 1 1) (dec 1 1))))
              (dec 1 1))
    with (dec 4 1) by (vm_compute; reflexivity).
  reflexivity.
Qed.

Lemma weightedScore_weighted_mean_witness :
  call (weightedScore (scores (dec 90 1) (dec 80 1) (dec 70 1) (dec 60 1)))
       (mkWeights (dec 1 1) (dec 1 1) (dec 1 1) (dec 1 1))
  = Normal (div (add (add (add (mul (dec 90 1) (dec 1 1)) (mul (dec 80 1) (dec 1 1)))
                          (mul (dec 70 1) (dec 1 1)))
                     (mul (dec 60 1) (dec 1 1)))
                (or (sum (Object_values
                            (mkWeights (dec 1 1) (dec 1 1) (dec 1 1) (dec 1 1))))
                    (dec 1 1)))
  /\ call (weightedScore (scores (dec 90 1) (dec 80 1) (dec 70 1) (dec 60 1)))
          (mkWeights (dec 1 1) (dec 1 1) (dec 1 1) (dec 1 1))
     = Normal (div (add (add (add (dec 90 1) (dec 80 1)) (dec 70 1)) (dec 60 1))
                   (dec 4 1)).
Proof.
  destruct (weightedScore_weighted_mean
              (mkWeights (dec 1 1) (dec 1 1) (dec 1 1) (dec 1 1))
              (dec 90 1) (dec 80 1) (dec 70 1) (dec 60 1)
              (dec 1 1) (dec 1 1) (dec 1 1) (dec 1 1)
              eq_refl eq_refl eq_refl eq_refl) as [Hgen Hmean].
  split; [exact Hgen |].
  apply Hmean; vm_compute; reflexivity.
Defined.

(** C5, as stated, fails.  With the four weights all 0.1 and the scores 100,
    100, 100 and 99 the aggregate is 99.749999999999986, below the mean 99.75
    of the four scores, which is a double. *)
Lemma weightedScore_not_the_mean :
  exists v : num,
    call (weightedScore (scores (dec 100 1) (dec 100 1) (dec 100 1) (dec 99 1)))
         (mkWeights (dec 1 10) (dec 1 10) (dec 1 10) (dec 1 10))
    = Normal v
    /\ ltb zero (dec 1 10) = true
    /\ ltb v (dec 9975 100) = true
    /\ (exact (dec 100 1) + exact (dec 100 1) + exact (dec 100 1) + exact (dec 99 1)
        = 4 * exact (dec 9975 100))%Z.
Proof.
  eexists. split; [reflexivity |].
  repeat split; vm_compute; reflexivity.
Qed.

(** ** Utility functions *)

(** C3, as the code has it.  [meanPoint] does not fail; it returns, per
    coordinate, the binary64 sum of the points taken from 0 in order, each
    addition rounded, divided by the number of points. *)
Theorem meanPoint_arithmetic_mean (ps : list point) :
  call meanPoint ps
  = Normal (div (sum (map fst ps)) (of_nat (List.length ps)),
            div (sum (map snd ps)) (of_nat (List.length ps))).
Proof. unfold call. now rewrite b64_meanPoint_sums. Qed.

(** C3, as stated, fails: for no points the centroid is [[NaN, NaN]], not an
    error; and the centroid of three points with x = 0.1 has
    x = 0.10000000000000002, above their arithmetic mean 0.1. *)
Lemma meanPoint_not_the_mean :
  call meanPoint [] = Normal (NaN, NaN)
  /\ call meanPoint [] <> Throw InvalidInputError
  /\ ltb (dec 1 10)
         (fst (meanPoint [(dec 1 10, zero); (dec 1 10, zero); (dec 1 10, zero)]))
     = true.
Proof.
  split; [vm_compute; reflexivity |].
  split; [discriminate | vm_compute; reflexivity].
Qed.




(** ** Metric evaluators *)







(** C8, as the code has it.  For an engine that is exact on the axes and
    finite y coordinates of the left inner and right outer eye corners, the
    raw measurement is [(faceWidth || 1e-6) / (eyeW || 1e-6)] in binary64,
    where [eyeW] is the mean of the two horizontal distances between an
    eye's outer and inner corner; the score is [scoreFromError] of
    [|ratio - 5| / 5] with tolerance 0.18.  The other four points of an eye
    contour do not enter. *)
Theorem fifths_measurement (E : MathImpl) (lm : list landmark) :
  axis_exact E ->
  (455 <= List.length lm)%nat ->
  is_finite (at_y lm LM.leftInner) = true ->
  is_finite (at_y lm LM.rightOuter) = true ->
  exists m, computeMetrics E lm = Normal m
            /\ B64.fifths (raw m)
               = div (or (faceWidth E lm) eps) (or (cornerEyeW lm) eps)
            /\ fifthsScore m
               = scoreFromError E
                   (div (abs (sub (B64.fifths (raw m)) (dec 5 1))) (dec 5 1))
                   (dec 18 100).
Proof.
  intros Hax Hlen Hl Hr. exists (metrics E lm).
  split; [now apply b64_computeMetrics_long |].
  cbn [metrics raw B64.fifths fifthsScore].
  split; [| reflexivity].
  unfold B64M.fifths, eyeW, leftEyeW, rightEyeW, cornerEyeW, pt.
  now rewrite !(b64_dist_horizontal E _ _ _ Hax) by assumption.
Qed.

Lemma fifths_measurement_witness :
  exists m, computeMetrics plain regular_face = Normal m
            /\ B64.fifths (raw m)
               = div (or (faceWidth plain regular_face) eps)
                     (or (cornerEyeW regular_face) eps)
            /\ fifthsScore m
               = scoreFromError plain
                   (div (abs (sub (B64.fifths (raw m)) (dec 5 1))) (dec 5 1))
                   (dec 18 100).
Proof.
  apply (fifths_measurement plain regular_face).
  - exact b64_plain_axis_exact.
  - apply Nat.leb_le. vm_compute. reflexivity.
  - vm_compute. reflexivity.
  - vm_compute. reflexivity.
Defined.

(** C8, as stated, fails.  On [bulged_face], where one contour point of the
    left eye lies outside the eye's corners, the measurement is 5 while the
    face width over the mean horizontal extent of the two eye contours
    is 4. *)
Lemma fifths_not_contour_extent :
  forallb (fun p => is_finite (x p) && is_finite (y p))%bool bulged_face = true
  /\ forall E : MathImpl,
       axis_exact E ->
       exists m, computeMetrics E bulged_face = Normal m
                 /\ B64.fifths (raw m) = dec 5 1
                 /\ fifths_of_contours E bulged_face = dec 4 1.
Proof.
  split; [vm_compute; reflexivity |].
  intros E Hax. exists (metrics E bulged_face).
  split; [apply b64_computeMetrics_long; apply Nat.leb_le; vm_compute; reflexivity |].
  cbn [metrics raw B64.fifths].
  assert (Hw : faceWidth E bulged_face = dec 7000 1).
  { unfold faceWidth.
    erewrite (b64_dist_axis_x E _ _ _ _ Hax) by (vm_compute; reflexivity).
    vm_compute. reflexivity. }
  split.
  - unfold B64M.fifths, eyeW, leftEyeW, rightEyeW, pt. rewrite Hw.
    rewrite !(b64_dist_horizontal E _ _ _ Hax) by (vm_compute; reflexivity).
    vm_compute. reflexivity.
  - unfold fifths_of_contours. rewrite Hw. vm_compute. reflexivity.
Qed.

(** ** Degenerate input *)




End Specification.

(** * Further properties of the code *)

(** ** Utility functions *)



(** X2. [clamp] has no defence against bad arguments: a NaN value comes
    back as NaN whatever the bounds, and with inverted finite bounds
    [hi < lo] every value other than NaN is mapped to [lo]. *)
Theorem clamp_edge_cases :
  (forall lo hi : num, clamp NaN lo hi = NaN)
  /\ (forall (v : num) (lo hi : R),
        hi < lo -> v <> NaN -> clamp v (Fin lo) (Fin hi) = Fin lo).
Proof.
  split.
  - intros lo hi. unfold clamp. destruct lo, hi; reflexivity.
  - intros v lo hi Hlt Hv. unfold clamp.
    destruct v as [x | | |]; cbn [Num.min Num.max]; [| | | congruence].
    + f_equal. apply Rmax_left.
      apply Rle_trans with hi; [apply Rmin_l | lra].
    + f_equal. apply Rmax_left. lra.
    + reflexivity.
Qed.

Lemma clamp_edge_cases_witness : clamp (Fin 50) (Fin 100) (Fin 0) = Fin 100.
Proof.
  apply (proj2 clamp_edge_cases (Fin 50) 100 0); [lra | discriminate].
Defined.

(** X4. [scoreFromError] depends only on the magnitudes of its arguments:
    negating the error or the tolerance does not change the score, so a
    negative tolerance is accepted like its absolute value. *)
Theorem scoreFromError_even (err tolerance : num) :
  scoreFromError (Num.neg err) tolerance = scoreFromError err tolerance
  /\ scoreFromError err (Num.neg tolerance) = scoreFromError err tolerance.
Proof.
  unfold scoreFromError. split.
  - now rewrite mul_neg_l, mul_neg_r, neg_involutive.
  - now rewrite !mul_neg_r, mul_neg_l, neg_involutive.
Qed.

(** ** Aggregation, continued *)

(** X6. A missing weight is not replaced by a default: when the weights
    object lacks any of the keys [symmetry], [golden], [fifths], [eyeGap]
    (the empty object included), the overall score is NaN, whatever the four
    metric scores and the other weights are. *)
Theorem weightedScore_missing_key (m : Metrics) (w : jsobj) :
  prop w "symmetry" = None \/ prop w "golden" = None
  \/ prop w "fifths" = None \/ prop w "eyeGap" = None ->
  weightedScore m w = NaN.
Proof.
  unfold weightedScore. cbv zeta.
  intros [H | [H | [H | H]]]; rewrite H; cbn [ToNumber];
    rewrite mul_NaN_r, ?add_NaN_r; reflexivity.
Qed.

Lemma weightedScore_missing_key_witness :
  weightedScore (scores (Fin 100) (Fin 100) (Fin 100) (Fin 100)) [] = NaN.
Proof.
  apply (weightedScore_missing_key _ []). left. reflexivity.
Defined.

(** ** Reading the landmark array *)

(** X9. [getPts] returns normally exactly when every requested index lies
    inside the landmark array; it then returns one point per index, in
    order, and otherwise throws a TypeError. *)
Theorem getPts_in_range (lm : list Landmark.t) (idxs : list nat) :
  getPts lm idxs
  = if forallb (fun i => Nat.ltb i (List.length lm)) idxs
    then Normal (map (point_at lm) idxs)
    else Throw TypeError.
Proof.
  destruct (forallb _ idxs) eqn:E.
  - apply getPts_present. rewrite forallb_forall in E. apply Forall_forall.
    intros i Hi. apply Nat.ltb_lt. now apply E.
  - apply getPts_absent. apply Exists_exists.
    assert (Hex : existsb (fun i => negb (Nat.ltb i (List.length lm))) idxs = true).
    { clear -E. induction idxs as [| i idxs IH]; [discriminate |].
      cbn [forallb existsb] in *. destruct (Nat.ltb i _); cbn in *; auto. }
    apply existsb_exists in Hex. destruct Hex as [i [Hin Hi]].
    exists i. split; [assumption |].
    apply Bool.negb_true_iff, Nat.ltb_ge in Hi. assumption.
Qed.

(** ** Metric evaluators, continued *)

(** X11. [computeMetrics] needs the array to reach index 454 (the right face
    boundary, the largest index it reads) and nothing else: with fewer than
    455 landmarks it throws a TypeError, and with at least 455 it returns
    normally whatever the coordinates are (NaN and infinities included). *)
Theorem computeMetrics_throws_iff_short (lm : list Landmark.t) :
  ((List.length lm <= 454)%nat -> computeMetrics lm = Throw TypeError)
  /\ ((454 < List.length lm)%nat -> exists m, computeMetrics lm = Normal m).
Proof.
  split; intros Hlen; unfold computeMetrics; cbv zeta.
  - destruct (getPts_cases lm LM.leftEye) as [-> | [p1 ->]]; [reflexivity |].
    cbn [bind].
    destruct (getPts_cases lm LM.rightEye) as [-> | [p2 ->]]; [reflexivity |].
    cbn [bind].
    destruct (xy_cases lm LM.faceLeft LM.faceLeft) as [-> | [p3 ->]];
      [reflexivity |].
    cbn [bind]. now rewrite (xy_absent_l lm LM.faceRight).
  - assert (Hin : forall i, In i LM.indices -> (i < List.length lm)%nat).
    { intros i Hi. pose proof indices_at_most_454 as Hall.
      rewrite Forall_forall in Hall. specialize (Hall i Hi). cbv beta in Hall.
      lia. }
    rewrite !getPts_present
      by (repeat constructor; apply Hin; cbn; tauto).
    rewrite !xy_present by (apply Hin; cbn; tauto).
    cbn [bind]. unfold pairs, symErr. cbn [mapM].
    rewrite !xy_present by (apply Hin; cbn; tauto).
    cbn [bind]. eexists. reflexivity.
Qed.

Lemma computeMetrics_throws_iff_short_witness :
  computeMetrics [] = Throw TypeError.
Proof.
  apply (proj1 (computeMetrics_throws_iff_short [])). cbn. lia.
Defined.

(** ** The proportion/symmetry/harmony variant *)

(** X16. [calculateFacialMetrics] has no guard against a zero denominator
    and its final clamp to [60,95] does not remove NaN: on finite landmarks
    where cheek width and face height are both zero, or mouth width and eye
    distance are both zero, or both eyes sit on the nose tip, the overall
    score is NaN; in the first case the face shape reported is "Oblong". *)
Theorem calculateFacialMetrics_degenerate_NaN
        (toFixed : num -> nat -> string) (lm : list Landmark.t) :
  legacy_finite lm ->
  (cheekWidthR lm = 0 /\ faceHeightR lm = 0)
  \/ (mouthWidthR lm = 0 /\ eyeDistanceR lm = 0)
  \/ (leftEyeToNoseR lm = 0 /\ rightEyeToNoseR lm = 0) ->
  exists r,
    Legacy.calculateFacialMetrics toFixed lm = Normal r
    /\ Legacy.overallScore r = NaN
    /\ (cheekWidthR lm = 0 -> faceHeightR lm = 0 ->
        Legacy.faceShape r = "Oblong"%string).
Proof.
  intros Hfin Hdeg.
  destruct (calculateFacialMetrics_eval toFixed lm Hfin)
    as (e & h & w & m & l & r & -> & -> & -> & -> & -> & -> & Heq).
  eexists. split; [exact Heq |]. cbv zeta.
  cbn [Legacy.overallScore Legacy.faceShape]. split.
  - destruct Hdeg as [[-> ->] | [[-> ->] | [-> ->]]].
    + rewrite div_zero_zero. cbn [Num.sub Num.add Num.neg Num.abs Num.div].
      now rewrite max_NaN_r.
    + rewrite div_zero_zero. cbn [Num.sub Num.add Num.neg Num.abs Num.div].
      rewrite max_NaN_r. cbn [Num.mul]. rewrite add_NaN_r.
      apply min_max_NaN.
    + cbn [Num.sub Num.add Num.neg Num.abs Num.max].
      replace (Rmax 0 0) with 0 by (symmetry; apply Rmax_left; lra).
      replace (Rabs (0 + - 0)) with 0
        by (rewrite Rplus_opp_r; symmetry; apply Rabs_R0).
      rewrite div_zero_zero. cbn [Num.add Num.neg Num.mul].
      rewrite add_NaN_r. reflexivity.
  - intros -> ->. now rewrite div_zero_zero.
Qed.

Lemma calculateFacialMetrics_degenerate_NaN_witness :
  exists r,
    Legacy.calculateFacialMetrics no_format collapsed_face = Normal r
    /\ Legacy.overallScore r = NaN.
Proof.
  destruct (calculateFacialMetrics_degenerate_NaN no_format collapsed_face
              (legacy_finite_landmarks_of _)
              (or_introl collapsed_face_legacy)) as [r [Hr [Ho _]]].
  exists r. split; [exact Hr | exact Ho].
Defined.

(** X17. [calculateFacialMetrics] reads nine landmarks, the largest index
    being 454: with fewer than 455 landmarks it throws a TypeError, and with
    at least 455 it returns normally whatever the coordinates are. *)
Theorem calculateFacialMetrics_throws_iff_short
        (toFixed : num -> nat -> string) (lm : list Landmark.t) :
  ((List.length lm <= 454)%nat ->
   Legacy.calculateFacialMetrics toFixed lm = Throw TypeError)
  /\ ((454 < List.length lm)%nat ->
      exists r, Legacy.calculateFacialMetrics toFixed lm = Normal r).
Proof.
  split; intros Hlen; unfold Legacy.calculateFacialMetrics.
  - repeat match goal with
           | |- bind (Legacy.at_index lm 454) _ = _ =>
               now rewrite (at_index_absent lm 454 Hlen)
           | |- bind (Legacy.at_index lm ?i) _ = _ =>
               destruct (at_index_cases lm i) as [-> | [? ->]];
               [reflexivity | cbn [bind]]
           end.
  - assert (Hin : forall i, In i legacy_indices -> (i < List.length lm)%nat).
    { intros i Hi. pose proof legacy_indices_at_most_454 as Hall.
      rewrite Forall_forall in Hall. specialize (Hall i Hi). cbv beta in Hall.
      lia. }
    rewrite !at_index_present by (apply Hin; cbn; tauto).
    cbn [bind]. eexists. reflexivity.
Qed.

Lemma calculateFacialMetrics_throws_iff_short_witness :
  Legacy.calculateFacialMetrics no_format [] = Throw TypeError.
Proof.
  apply (proj1 (calculateFacialMetrics_throws_iff_short no_format [])).
  cbn. lia.
Defined.

(** X18. A proportion score of 95 or more always comes with the face shape
    "Heart": the ratio 1.618 that scores 100 lies in the Heart band
    [1.5, 1.7), and no ratio of another band reaches 95. *)
Theorem high_proportion_is_heart
        (toFixed : num -> nat -> string) (lm : list Landmark.t)
        (r : Legacy.Result) :
  legacy_finite lm ->
  Legacy.calculateFacialMetrics toFixed lm = Normal r ->
  Num.le (Fin 95) (Legacy.proportions r) ->
  Legacy.faceShape r = "Heart"%string.
Proof.
  intros Hfin Hr Hhigh.
  destruct (calculateFacialMetrics_eval toFixed lm Hfin)
    as (e & h & w & m & l & r' & -> & -> & -> & -> & -> & -> & Heq).
  cbv zeta in Heq.
  remember (Num.div (Fin (faceHeightR lm)) (Fin (cheekWidthR lm))) as ratio
    eqn:Eratio.
  rewrite Heq in Hr. injection Hr as <-.
  cbn [Legacy.proportions Legacy.faceShape] in *.
  destruct (Req_dec_T (cheekWidthR lm) 0) as [Hz | Hnz].
  - exfalso. rewrite Hz in Eratio.
    destruct (div_fin_zero (faceHeightR lm) (distR_nonneg _ _ _)) as [E | E];
      rewrite E in Eratio; subst ratio; cbn in Hhigh; try contradiction.
    destruct (Rlt_dec 1.618 0) as [Hneg | _]; [lra |].
    cbn in Hhigh. lra.
  - rewrite div_fin in Eratio by assumption. subst ratio.
    cbn [Num.sub Num.add Num.neg Num.abs] in Hhigh.
    rewrite div_fin in Hhigh by lra.
    cbn [Num.sub Num.add Num.neg Num.max Num.mul Num.le] in Hhigh.
    fold (Rminus 1 (Rabs (faceHeightR lm / cheekWidthR lm + - (1.618)) / 1.618))
      in Hhigh.
    apply (high_unit_score _ 1.618 ltac:(lra)) in Hhigh.
    set (q := faceHeightR lm / cheekWidthR lm) in *.
    assert (Hq : 1.5 <= q < 1.7).
    { unfold Rabs in Hhigh. destruct (Rcase_abs (q + - (1.618))); lra. }
    unfold Legacy.determineFaceShape. rewrite !ltb_fin.
    destruct (Rlt_dec q 1.3); [lra |].
    destruct (Rlt_dec q 1.5); [lra |].
    destruct (Rlt_dec q 1.7); [reflexivity | lra].
Qed.

Lemma high_proportion_is_heart_witness :
  exists r,
    Legacy.calculateFacialMetrics no_format golden_legacy_face = Normal r
    /\ Legacy.faceShape r = "Heart"%string.
Proof.
  destruct (calculateFacialMetrics_eval no_format golden_legacy_face
              (legacy_finite_landmarks_of _))
    as (e & h & w & m & l & r' & He & Hh & Hw & Hm & Hl & Hr' & Heq).
  eexists. split; [exact Heq |].
  apply (high_proportion_is_heart no_format golden_legacy_face _
           (legacy_finite_landmarks_of _) Heq).
  cbv zeta. cbn [Legacy.proportions]. rewrite Hh, Hw.
  destruct golden_legacy_face_measurements as [-> ->].
  rewrite div_fin by lra.
  cbn [Num.sub Num.add Num.neg Num.abs].
  rewrite div_fin by lra.
  cbn [Num.sub Num.add Num.neg Num.max Num.mul Num.le].
  replace (161.8 / 100 + - (1.618)) with 0 by lra.
  rewrite Rabs_R0.
  replace (1 + - (0 / 1.618)) with 1 by lra.
  rewrite Rmax_right by lra. lra.
Defined.

(** X19. The colour and the description of a score always belong to the
    same band, for every number (NaN and infinities included): green goes
    with the two descriptions from 85 up, lime with those from 75, yellow
    with those from 65, and orange with "Unique charm". *)
Theorem score_colour_matches_description (score : num) :
  In (Legacy.getScoreColor score, Legacy.getScoreDescription score)
     [ ("#4ade80", "Exceptional facial harmony");
       ("#4ade80", "Outstanding features");
       ("#84cc16", "Very attractive proportions");
       ("#84cc16", "Above average beauty");
       ("#facc15", "Good facial balance");
       ("#facc15", "Pleasant features");
       ("#fb923c", "Unique charm") ]%string.
Proof.
  unfold Legacy.getScoreColor, Legacy.getScoreDescription.
  destruct score as [x | | |].
  - rewrite !geb_fin.
    destruct (Rlt_dec x 90), (Rlt_dec x 85), (Rlt_dec x 80), (Rlt_dec x 75),
      (Rlt_dec x 70), (Rlt_dec x 65); try lra; cbn [In]; tauto.
  - cbn. tauto.
  - cbn. tauto.
  - cbn. tauto.
Qed.

(** ** Perfect measurements *)

(** X20. A rule-of-fifths ratio of exactly 5 gives the fifths score 100, and
    an eye-gap ratio of exactly 1 gives the eye-gap score 100. *)
Theorem target_ratios_score_100 (lm : list Landmark.t) (m : Metrics) :
  registry_finite lm ->
  computeMetrics lm = Normal m ->
  (fifths (raw m) = Fin 5 -> fifthsScore m = Fin 100)
  /\ (eyeGapRatio (raw m) = Fin 1 -> eyeGapScore m = Fin 100).
Proof.
  intros Hreg Hm. rewrite (computeMetrics_eval lm Hreg) in Hm.
  injection Hm as <-. cbn [raw fifths eyeGapRatio fifthsScore eyeGapScore].
  split; intros H; injection H as H; f_equal.
  - unfold fifthsErrR. rewrite H, Rminus_diag, Rabs_R0.
    replace (0 / 5) with 0 by lra. apply scoreR_zero. lra.
  - unfold eyeGapErrR. rewrite H, Rminus_diag, Rabs_R0.
    apply scoreR_zero. lra.
Qed.

Lemma target_ratios_score_100_witness :
  exists m,
    computeMetrics ideal_face = Normal m
    /\ fifthsScore m = Fin 100 /\ eyeGapScore m = Fin 100.
Proof.
  destruct ideal_face_measurements as [Hw [_ [_ [He Hg]]]].
  assert (H5 : fifthsR ideal_face = 5)
    by (unfold fifthsR; rewrite Hw, He, !den_nonzero by lra; lra).
  assert (H1 : eyeGapRatioR ideal_face = 1)
    by (unfold eyeGapRatioR; rewrite Hg, He, !den_nonzero by lra; lra).
  pose proof (registry_finite_landmarks_of (coords ideal_table)) as Hreg.
  fold ideal_face in Hreg.
  destruct (target_ratios_score_100 ideal_face _ Hreg
              (computeMetrics_eval ideal_face Hreg)) as [Hf Hg'].
  eexists. split; [exact (computeMetrics_eval ideal_face Hreg) |].
  split.
  - apply Hf. cbn [raw fifths]. now rewrite H5.
  - apply Hg'. cbn [raw eyeGapRatio]. now rewrite H1.
Defined.


(** * Further properties, on binary64 numbers *)

Section B64Extras.

Import B64 B64M.

(** X3. The distance of a point to itself is [+0] when both coordinates are
    finite numbers, and NaN when one of them is NaN or an infinity, for
    every engine. *)
Theorem dist_to_itself (E : MathImpl) (p : point) :
  dist E p p
  = if (is_finite (fst p) && is_finite (snd p))%bool then zero else NaN.
Proof.
  destruct p as [a b]. unfold dist. cbn [fst snd].
  destruct a, b; cbn [is_finite andb];
    rewrite ?(b64_sub_diag (S754_finite _ _ _)) by reflexivity;
    repeat match goal with s : bool |- _ => destruct s end;
    reflexivity.
Qed.

(** X14. The analysis of a mesh with fewer than 455 points throws a
    TypeError.  For a mesh of at least 455 points it returns four scores,
    each NaN or in [0,100], and, with the application's weights 40/25/20/15,
    the overall score [(s1*40 + s2*25 + s3*20 + s4*15) / 100] in binary64. *)
Theorem analyzeMesh_result (E : MathImpl) :
  (forall mesh : list (num * num * num),
      (List.length mesh <= 454)%nat -> analyzeMesh E mesh = Throw TypeError)
  /\ (forall mesh : list (num * num * num),
        (454 < List.length mesh)%nat ->
        exists m,
          analyzeMesh E mesh
          = Normal (m, div (add (add (add (mul (symmetryScore m) (dec 40 1))
                                          (mul (goldenScore m) (dec 25 1)))
                                     (mul (fifthsScore m) (dec 20 1)))
                                (mul (eyeGapScore m) (dec 15 1)))
                           (dec 100 1))
          /\ score_or_NaN (symmetryScore m)
          /\ score_or_NaN (goldenScore m)
          /\ score_or_NaN (fifthsScore m)
          /\ score_or_NaN (eyeGapScore m)).
Proof.
  split.
  - intros mesh Hlen. unfold analyzeMesh. cbv zeta.
    rewrite b64_computeMetrics_short by (rewrite length_map; lia).
    reflexivity.
  - intros mesh Hlen. unfold analyzeMesh. cbv zeta.
    set (lm := map _ mesh).
    assert (Hlm : (455 <= List.length lm)%nat)
      by (unfold lm; rewrite length_map; lia).
    rewrite (b64_computeMetrics_long E lm Hlm). cbn [bind].
    exists (metrics E lm). split.
    + unfold weightedScore. cbv zeta.
      replace (or (sum (Object_values weights)) (dec 1 1)) with (dec 100 1)
        by (vm_compute; reflexivity).
      reflexivity.
    + cbn [metrics symmetryScore goldenScore fifthsScore eyeGapScore].
      repeat split; apply b64_scoreFromError_range.
Qed.

Lemma analyzeMesh_result_witness :
  analyzeMesh plain [] = Throw TypeError
  /\ exists m,
       analyzeMesh plain regular_mesh
       = Normal (m, div (add (add (add (mul (symmetryScore m) (dec 40 1))
                                       (mul (goldenScore m) (dec 25 1)))
                                  (mul (fifthsScore m) (dec 20 1)))
                             (mul (eyeGapScore m) (dec 15 1)))
                        (dec 100 1))
       /\ score_or_NaN (symmetryScore m)
       /\ score_or_NaN (goldenScore m)
       /\ score_or_NaN (fifthsScore m)
       /\ score_or_NaN (eyeGapScore m).
Proof.
  destruct (analyzeMesh_result plain) as [Hshort Hlong].
  split.
  - apply Hshort. cbn. lia.
  - apply Hlong. apply Nat.ltb_lt. vm_compute. reflexivity.
Defined.

End B64Extras.
